(** * syncro-mcp: navigation state machine, domain registry, client cache
      and HTTP credential gate

    A shallow embedding of the TypeScript sources

    - [utils/types.ts]    (domain names, handler interface),
    - [utils/client.ts]   (credential resolution, cached Syncro client),
    - [domains/index.ts]  (lazy handler registry) and the five handlers,
    - [index.ts]          (tool listing, tool-call dispatch, HTTP listener).

    Module-level [let] variables of the process become fields of a state
    record that every operation threads explicitly; a rejected promise or a
    [throw] becomes the [Throw] completion.  The [await]s of the source are
    run to completion one call at a time.  What the server calls outside
    the repository is a parameter: the Syncro client library, the dynamic
    [import()] of a handler module, and the URL parser of the platform. *)

From Stdlib Require Import Ascii.
From stdpp Require Import base option list strings gmap fin_maps.

Set Default Proof Using "Type".

(** ** JavaScript values, as far as the server looks at them *)

Module Js.

(** The line feed of the template literals. *)
Definition nl : string := String (ascii_of_nat 10) EmptyString.

(** A value found in a tool-call argument bag.  The server only tests such
    a value for being one of five strings and splices it into a template
    literal, so a value that is not a string is carried with what
    [ToString] does with it: the text it gives (null, booleans, numbers,
    arrays, most objects), or, for a value that has no string conversion
    (an object whose [toString] and [valueOf] give no primitive, such as
    the object with the one property [toString: 1] read from JSON), the
    message of the [TypeError] it throws. *)
Inductive value :=
| Undefined
| Str (s : string)
| Other (rendered : string)
| Unprintable (typeError : string).

(** What a [catch (error)] clause can receive, by what the clause of the
    server does with it
    ([error instanceof Error ? error.message : String(error)], spliced
    into [`Error: ${message}`]): an [Error] object with the text of its
    [message]; any other value with its [String(error)] text; or a value
    on which that conversion itself throws a [TypeError] with the message
    carried (a thrown object without string conversion, or an [Error]
    whose [message] is one). *)
Inductive thrown :=
| Error (message : string)
| NonError (rendered : string)
| Unconvertible (typeError : string).

(** Truthiness of a [string | undefined]: only a non-empty string passes
    [if (x)]. *)
Definition truthy (x : option string) : bool :=
  match x with
  | Some (String _ _) => true
  | _ => false
  end.

(** [xs.join(sep)] on an array of strings. *)
Fixpoint join (sep : string) (xs : list string) : string :=
  match xs with
  | [] => EmptyString
  | [x] => x
  | x :: rest => x +:+ sep +:+ join sep rest
  end.

(** [String.prototype.toLowerCase] on the ASCII range, which is all the
    header names of the server use. *)
Definition lowerAscii (c : ascii) : ascii :=
  let n := nat_of_ascii c in
  if (65 <=? n)%nat && (n <=? 90)%nat then ascii_of_nat (n + 32) else c.

Fixpoint toLowerCase (s : string) : string :=
  match s with
  | EmptyString => EmptyString
  | String c rest => String (lowerAscii c) (toLowerCase rest)
  end.

(** [switch (scrutinee) { case k: ...; default: ... }] over string labels
    whose cases all end in [return]. *)
Fixpoint switch {A} (scrutinee : string) (cases : list (string * A))
    (default : A) : A :=
  match cases with
  | [] => default
  | (label, body) :: rest =>
      if String.eqb scrutinee label then body
      else switch scrutinee rest default
  end.

End Js.

(** ** Completions and the state-and-exception monad *)

(** How an [async] function settles: it resolves to a value or it rejects. *)
Inductive Completion (A : Type) :=
| Return (a : A)
| Throw (e : Js.thrown).
Arguments Return {A} a.
Arguments Throw {A} e.

(** A computation over the mutable state [S] that may throw. *)
Definition SE (S A : Type) : Type := S -> S * Completion A.

Definition ret {S A} (a : A) : SE S A := fun s => (s, Return a).
Definition throw {S A} (e : Js.thrown) : SE S A := fun s => (s, Throw e).
Definition bind {S A B} (m : SE S A) (k : A -> SE S B) : SE S B :=
  fun s =>
    match m s with
    | (s', Return a) => k a s'
    | (s', Throw e) => (s', Throw e)
    end.
Definition get {S} : SE S S := fun s => (s, Return s).
Definition modify {S} (f : S -> S) : SE S unit := fun s => (f s, Return tt).

(** [try { body } catch (error) { handler }]: the state changes made before
    the throw stay. *)
Definition tryCatch {S A} (body : SE S A) (handler : Js.thrown -> SE S A)
    : SE S A :=
  fun s =>
    match body s with
    | (s', Return a) => (s', Return a)
    | (s', Throw e) => handler e s'
    end.

(** A computation that only settles, without touching the state. *)
Definition settle {S A} (c : Completion A) : SE S A := fun s => (s, c).

(** [`${v}`]: the text a template literal splices in for [v], or the
    [TypeError] the conversion throws. *)
Definition templateText (v : Js.value) : Completion string :=
  match v with
  | Js.Undefined => Return "undefined"
  | Js.Str s => Return s
  | Js.Other r => Return r
  | Js.Unprintable typeError => Throw (Js.Error typeError)
  end.

(** [error instanceof Error ? error.message : String(error)] and the splice
    of the outcome into the template literal: the text, or the [TypeError]
    thrown inside the [catch] clause. *)
Definition messageOf (error : Js.thrown) : Completion string :=
  match error with
  | Js.Error message => Return message
  | Js.NonError rendered => Return rendered
  | Js.Unconvertible typeError => Throw (Js.Error typeError)
  end.

Notation "'let*' x ':=' m 'in' k" := (bind m (fun x => k))
  (at level 10, x name, m at level 100, k at level 200,
   format "'[v' 'let*'  x  ':='  m  'in' '/' k ']'").

(** ** utils/types.ts *)

(** A tool descriptor.  The [inputSchema] of the source is a constant JSON
    object per tool that no operation of the server reads; it is left out. *)
Record Tool := { name : string; description : string }.

Inductive Content := Text (text : string).

(** [isError] is [true] when the field is present; the server only ever
    writes [isError: true] or omits the field. *)
Record CallToolResult := { content : list Content; isError : bool }.

Inductive DomainName := customers | tickets | assets | contacts | invoices.

#[global] Instance DomainName_eq_dec : EqDecision DomainName.
Proof. solve_decision. Defined.

(** The string literal a [DomainName] is at run time. *)
Definition domainString (d : DomainName) : string :=
  match d with
  | customers => "customers"
  | tickets => "tickets"
  | assets => "assets"
  | contacts => "contacts"
  | invoices => "invoices"
  end.

Definition domainIndex (d : DomainName) : nat :=
  match d with
  | customers => 0 | tickets => 1 | assets => 2 | contacts => 3 | invoices => 4
  end.

Definition domainOfIndex (n : nat) : option DomainName :=
  match n with
  | 0 => Some customers | 1 => Some tickets | 2 => Some assets
  | 3 => Some contacts | 4 => Some invoices | _ => None
  end.

#[global] Instance DomainName_countable : Countable DomainName.
Proof.
  refine (inj_countable domainIndex domainOfIndex _).
  intros []; reflexivity.
Defined.

(** [isDomainName(value)]: [Array.prototype.includes] compares with
    SameValueZero, so only a string can be found in the array. *)
Definition isDomainName (value : Js.value) : bool :=
  match value with
  | Js.Str s =>
      bool_decide
        (s ∈ ["customers"; "tickets"; "assets"; "contacts"; "invoices"])
  | _ => false
  end.

(** The narrowing [value is DomainName] that the guard gives the type
    checker: the domain whose literal the value is. *)
Definition asDomainName (value : Js.value) : option DomainName :=
  match value with
  | Js.Str s =>
      List.find (fun d => String.eqb s (domainString d))
        [customers; tickets; assets; contacts; invoices]
  | _ => None
  end.

(** The argument bag of a tool call, [undefined] when the request has none. *)
Definition Args : Type := option (gmap string Js.value).

(** ** utils/client.ts *)

Record SyncroCredentials := { apiKey : string; subdomain : option string }.

#[global] Instance SyncroCredentials_eq_dec : EqDecision SyncroCredentials.
Proof. solve_decision. Defined.

(** A [SyncroClient] object: the configuration it was constructed with and
    the identity of the object, which is what [toBe] and [===] compare. *)
Record SyncroClient := { ref : nat; config : SyncroCredentials }.

(** The module variables [_client] and [_credentials], and the number of
    client objects constructed so far (the next fresh identity). *)
Record ClientModule := {
  _client : option SyncroClient;
  _credentials : option SyncroCredentials;
  constructed : nat
}.

(** [getCredentials()], reading [process.env]. *)
Definition getCredentials (env : gmap string string)
    : option SyncroCredentials :=
  let apiKey := env !! "SYNCRO_API_KEY" in
  let subdomain := env !! "SYNCRO_SUBDOMAIN" in
  if negb (Js.truthy apiKey) then None
  else
    match apiKey with
    | Some apiKey => Some {| apiKey := apiKey; subdomain := subdomain |}
    | None => None
    end.

(** [creds.apiKey !== _credentials.apiKey ||
     creds.subdomain !== _credentials.subdomain] *)
Definition credentialsChanged (creds cached : SyncroCredentials) : bool :=
  negb (bool_decide (apiKey creds = apiKey cached))
  || negb (bool_decide (subdomain creds = subdomain cached)).

(** [getClient()].  The dynamic import of the client library resolves; the
    constructor allocates a fresh object. *)
Definition getClient (env : gmap string string)
    : SE ClientModule SyncroClient :=
  fun m =>
    match getCredentials env with
    | None =>
        (m, Throw (Js.Error
          "No API credentials provided. Please configure SYNCRO_API_KEY environment variable."))
    | Some creds =>
        let m1 :=
          match _client m, _credentials m with
          | Some _, Some cached =>
              if credentialsChanged creds cached
              then {| _client := None;
                      _credentials := _credentials m;
                      constructed := constructed m |}
              else m
          | _, _ => m
          end in
        match _client m1 with
        | None =>
            let c := {| ref := constructed m1; config := creds |} in
            ({| _client := Some c;
                _credentials := Some creds;
                constructed := S (constructed m1) |}, Return c)
        | Some c => (m1, Return c)
        end
    end.

(** [clearClient()] *)
Definition clearClient (m : ClientModule) : ClientModule :=
  {| _client := None; _credentials := None; constructed := constructed m |}.

(** The module as it is when the process starts. *)
Definition freshClientModule : ClientModule :=
  {| _client := None; _credentials := None; constructed := 0 |}.

(** [DomainHandler]: the tools of a domain and the call handler.  A handler
    reads [process.env] and works on the client module through
    [getClient]. *)
Record DomainHandler := {
  getTools : list Tool;
  handleCall :
    string -> Args -> gmap string string -> SE ClientModule CallToolResult
}.

Definition textResult (text : string) : CallToolResult :=
  {| content := [Text text]; isError := false |}.

Definition errorResult (text : string) : CallToolResult :=
  {| content := [Text text]; isError := true |}.

(** ** The five handler modules under domains/ *)

(** *** [JSON.stringify] of a string *)

Definition doubleQuote : string := String (ascii_of_nat 34) EmptyString.
Definition backslash : string := String (ascii_of_nat 92) EmptyString.

Definition hexDigit (n : nat) : string :=
  String.substring n 1 "0123456789abcdef".

(** The escape [QuoteJSONString] writes for one character: the two-character
    escapes, the [u00xx] escape for the other control characters, the
    character itself otherwise.  A string is taken as its UTF-8 bytes, and
    a byte outside ASCII is part of a character that is written as it
    is. *)
Definition quoteChar (c : ascii) : string :=
  let n := nat_of_ascii c in
  if (n =? 8)%nat then backslash +:+ "b"
  else if (n =? 9)%nat then backslash +:+ "t"
  else if (n =? 10)%nat then backslash +:+ "n"
  else if (n =? 12)%nat then backslash +:+ "f"
  else if (n =? 13)%nat then backslash +:+ "r"
  else if (n =? 34)%nat then backslash +:+ doubleQuote
  else if (n =? 92)%nat then backslash +:+ backslash
  else if (n <? 32)%nat
       then backslash +:+ "u00" +:+ hexDigit (n / 16) +:+ hexDigit (n mod 16)
  else String c EmptyString.

Fixpoint quoteChars (s : string) : string :=
  match s with
  | EmptyString => EmptyString
  | String c rest => quoteChar c +:+ quoteChars rest
  end.

(** [JSON.stringify(s)] for a string [s]. *)
Definition quoteJSON (s : string) : string :=
  doubleQuote +:+ quoteChars s +:+ doubleQuote.

(** [JSON.stringify({ success: true, message }, null, 2)] *)
Definition successNotice (message : string) : string :=
  "{" +:+ Js.nl
  +:+ "  " +:+ quoteJSON "success" +:+ ": true," +:+ Js.nl
  +:+ "  " +:+ quoteJSON "message" +:+ ": " +:+ quoteJSON message +:+ Js.nl
  +:+ "}".

(** [args.<property>], the first thing a [case] does with [args]: reading a
    property off [undefined] throws a [TypeError] (in the wording of V8);
    off an argument bag no read throws. *)
Definition readArgs {S} (property : string) (args : Args)
    : SE S (gmap string Js.value) :=
  match args with
  | None =>
      throw (Js.Error ("Cannot read properties of undefined (reading '"
                       +:+ property +:+ "')"))
  | Some bag => ret bag
  end.

Section Handlers.

(** The client library [@asachs01/node-syncro] is not part of the
    repository.  [api client toolName bag] stands for what the [case] of
    [toolName] does with it once the arguments are there: the remote call
    made through [client] with the parameters picked out of [bag], and the
    [JSON.stringify] text the case builds from the reply (an object, by
    the types of the library); it throws when the call rejects or the
    reply lacks a field the case reads. *)
Variable api :
  SyncroClient -> string -> gmap string Js.value -> Completion string.

(** One [case] of a handler's [switch]: read [args] (the property
    [firstRead] first), await the remote call and wrap the rendered
    reply. *)
Definition remoteCase (toolName firstRead : string) (client : SyncroClient)
    (args : Args) : SE ClientModule CallToolResult :=
  let* bag := readArgs firstRead args in
  let* text := settle (api client toolName bag) in
  ret (textResult text).

(** The [case "syncro_invoices_email"]: the reply of the remote call is
    dropped and the answer is built from [args.invoice_id]. *)
Definition emailCase (client : SyncroClient) (args : Args)
    : SE ClientModule CallToolResult :=
  let* bag := readArgs "invoice_id" args in
  let invoiceId := default Js.Undefined (bag !! "invoice_id") in
  let* _ := settle (api client "syncro_invoices_email" bag) in
  let* id := settle (templateText invoiceId) in
  ret (textResult
         (successNotice
            ("Invoice " +:+ id +:+ " has been emailed to the customer"))).

(** The common shape of the five [handleCall] functions: [getClient]
    first, then the [switch] over the handler's own tool names, with the
    [default] branch answering an error result. *)
Definition handleCallOf
    (cases :
       list (string * (SyncroClient -> Args -> SE ClientModule CallToolResult)))
    (unknown : string) (toolName : string) (args : Args)
    (env : gmap string string) : SE ClientModule CallToolResult :=
  let* client := getClient env in
  Js.switch toolName
    (List.map (fun c => (fst c, snd c client args)) cases)
    (ret (errorResult (unknown +:+ toolName))).

Definition customersTools : list Tool :=
  [ {| name := "syncro_customers_list";
       description := "List customers in Syncro. Can filter by query, email, phone, or include disabled customers." |};
    {| name := "syncro_customers_get";
       description := "Get details for a specific customer by their ID" |};
    {| name := "syncro_customers_create";
       description := "Create a new customer in Syncro" |};
    {| name := "syncro_customers_search";
       description := "Search for customers using a query string. Matches against business name, contact name, email, and other fields." |} ].

Definition customersHandler : DomainHandler :=
  {| getTools := customersTools;
     handleCall :=
       handleCallOf
         [("syncro_customers_list",
           remoteCase "syncro_customers_list" "query");
          ("syncro_customers_get",
           remoteCase "syncro_customers_get" "customer_id");
          ("syncro_customers_create",
           remoteCase "syncro_customers_create" "business_name");
          ("syncro_customers_search",
           remoteCase "syncro_customers_search" "query")]
         "Unknown customer tool: " |}.

Definition ticketsTools : list Tool :=
  [ {| name := "syncro_tickets_list";
       description := "List tickets in Syncro. Can filter by customer, contact, status, user, problem type, or resolved state." |};
    {| name := "syncro_tickets_get";
       description := "Get details for a specific ticket by its ID, including comments" |};
    {| name := "syncro_tickets_create";
       description := "Create a new ticket in Syncro" |};
    {| name := "syncro_tickets_update";
       description := "Update an existing ticket in Syncro" |};
    {| name := "syncro_tickets_add_comment";
       description := "Add a comment to an existing ticket" |} ].

Definition ticketsHandler : DomainHandler :=
  {| getTools := ticketsTools;
     handleCall :=
       handleCallOf
         [("syncro_tickets_list",
           remoteCase "syncro_tickets_list" "customer_id");
          ("syncro_tickets_get",
           remoteCase "syncro_tickets_get" "ticket_id");
          ("syncro_tickets_create",
           remoteCase "syncro_tickets_create" "customer_id");
          ("syncro_tickets_update",
           remoteCase "syncro_tickets_update" "ticket_id");
          ("syncro_tickets_add_comment",
           remoteCase "syncro_tickets_add_comment" "ticket_id")]
         "Unknown ticket tool: " |}.

Definition assetsTools : list Tool :=
  [ {| name := "syncro_assets_list";
       description := "List assets/configuration items in Syncro. Can filter by customer, asset type, or serial number." |};
    {| name := "syncro_assets_get";
       description := "Get details for a specific asset by its ID" |};
    {| name := "syncro_assets_search";
       description := "Search for assets using a query string or serial number. Useful for finding devices by name, serial, or other attributes." |} ].

Definition assetsHandler : DomainHandler :=
  {| getTools := assetsTools;
     handleCall :=
       handleCallOf
         [("syncro_assets_list",
           remoteCase "syncro_assets_list" "customer_id");
          ("syncro_assets_get", remoteCase "syncro_assets_get" "asset_id");
          ("syncro_assets_search",
           remoteCase "syncro_assets_search" "limit")]
         "Unknown asset tool: " |}.

Definition contactsTools : list Tool :=
  [ {| name := "syncro_contacts_list";
       description := "List contacts in Syncro. Can filter by customer ID or search query." |};
    {| name := "syncro_contacts_get";
       description := "Get details for a specific contact by their ID" |};
    {| name := "syncro_contacts_create";
       description := "Create a new contact in Syncro" |} ].

Definition contactsHandler : DomainHandler :=
  {| getTools := contactsTools;
     handleCall :=
       handleCallOf
         [("syncro_contacts_list",
           remoteCase "syncro_contacts_list" "customer_id");
          ("syncro_contacts_get",
           remoteCase "syncro_contacts_get" "contact_id");
          ("syncro_contacts_create",
           remoteCase "syncro_contacts_create" "customer_id")]
         "Unknown contact tool: " |}.

Definition invoicesTools : list Tool :=
  [ {| name := "syncro_invoices_list";
       description := "List invoices in Syncro. Can filter by customer, status, or date range." |};
    {| name := "syncro_invoices_get";
       description := "Get details for a specific invoice by its ID, including line items" |};
    {| name := "syncro_invoices_create";
       description := "Create a new invoice in Syncro" |};
    {| name := "syncro_invoices_email";
       description := "Email an invoice to the customer" |} ].

Definition invoicesHandler : DomainHandler :=
  {| getTools := invoicesTools;
     handleCall :=
       handleCallOf
         [("syncro_invoices_list",
           remoteCase "syncro_invoices_list" "customer_id");
          ("syncro_invoices_get",
           remoteCase "syncro_invoices_get" "invoice_id");
          ("syncro_invoices_create",
           remoteCase "syncro_invoices_create" "customer_id");
          ("syncro_invoices_email", emailCase)]
         "Unknown invoice tool: " |}.

(** What the dynamic imports of [getDomainHandler] resolve to when the
    modules are the ones of the repository. *)
Definition repositoryModules (domain : DomainName)
    : Completion DomainHandler :=
  match domain with
  | customers => Return customersHandler
  | tickets => Return ticketsHandler
  | assets => Return assetsHandler
  | contacts => Return contactsHandler
  | invoices => Return invoicesHandler
  end.

End Handlers.

(** ** domains/index.ts *)

Section Registry.

(** [await import("./<domain>.js")] followed by the pick of the exported
    handler.  The module system is outside the program: an import can
    reject (the test suite swaps the five modules for mocks). *)
Variable importDomain : DomainName -> Completion DomainHandler.

(** [getDomainHandler(domain)] over the module variable [domainCache].
    The [default] branch of the source's [switch] has no [DomainName] to
    run on. *)
Definition getDomainHandler (domain : DomainName)
    : SE (gmap DomainName DomainHandler) DomainHandler :=
  fun domainCache =>
    match domainCache !! domain with
    | Some cached => (domainCache, Return cached)
    | None =>
        match importDomain domain with
        | Return handler =>
            (<[domain := handler]> domainCache, Return handler)
        | Throw e => (domainCache, Throw e)
        end
    end.

End Registry.

(** [getAvailableDomains()] *)
Definition getAvailableDomains : list DomainName :=
  [customers; tickets; assets; contacts; invoices].

(** [clearDomainCache()] *)
Definition clearDomainCache (domainCache : gmap DomainName DomainHandler)
    : gmap DomainName DomainHandler := ∅.

(** [getAvailableDomains().join(", ")] *)
Definition availableDomainsText : string :=
  Js.join ", " (List.map domainString getAvailableDomains).

(** ** index.ts: the server *)

(** A call the dispatcher hands to a domain handler
    ([handler.handleCall(name, args)]); kept in the state as a record of what
    was delegated. *)
Inductive Event :=
| HandleCall (domain : DomainName) (toolName : string) (args : Args).

(** The mutable state of the process: [process.env], the module variables
    of [utils/client.ts], [domainCache] of [domains/index.ts],
    [currentDomain] of [index.ts] ([None] is [null]), and the calls
    delegated to handlers so far, oldest first. *)
Record Process := {
  env : gmap string string;
  clientModule : ClientModule;
  domainCache : gmap DomainName DomainHandler;
  currentDomain : option DomainName;
  delegated : list Event
}.

Definition set_env (e : gmap string string) (p : Process) : Process :=
  {| env := e; clientModule := clientModule p; domainCache := domainCache p;
     currentDomain := currentDomain p; delegated := delegated p |}.

Definition set_clientModule (m : ClientModule) (p : Process) : Process :=
  {| env := env p; clientModule := m; domainCache := domainCache p;
     currentDomain := currentDomain p; delegated := delegated p |}.

Definition set_domainCache (c : gmap DomainName DomainHandler) (p : Process)
    : Process :=
  {| env := env p; clientModule := clientModule p; domainCache := c;
     currentDomain := currentDomain p; delegated := delegated p |}.

Definition set_currentDomain (d : option DomainName) (p : Process) : Process :=
  {| env := env p; clientModule := clientModule p;
     domainCache := domainCache p; currentDomain := d;
     delegated := delegated p |}.

Definition record_event (e : Event) (p : Process) : Process :=
  {| env := env p; clientModule := clientModule p;
     domainCache := domainCache p; currentDomain := currentDomain p;
     delegated := delegated p ++ [e] |}.

(** Run a computation of [domains/index.ts] on the process. *)
Definition onDomainCache {A} (m : SE (gmap DomainName DomainHandler) A)
    : SE Process A :=
  fun p =>
    match m (domainCache p) with
    | (c, r) => (set_domainCache c p, r)
    end.

(** Run a computation of [utils/client.ts] on the process. *)
Definition onClientModule {A}
    (m : gmap string string -> SE ClientModule A) : SE Process A :=
  fun p =>
    match m (env p) (clientModule p) with
    | (c, r) => (set_clientModule c p, r)
    end.

(** The process right after start, with the environment it was given. *)
Definition startProcess (e : gmap string string) : Process :=
  {| env := e; clientModule := freshClientModule; domainCache := ∅;
     currentDomain := None; delegated := [] |}.

Definition navigateTool : Tool :=
  {| name := "syncro_navigate";
     description := "Navigate to a Syncro domain to access its tools. Available domains: customers (manage customer accounts), tickets (manage support tickets), assets (manage configuration items/devices), contacts (manage customer contacts), invoices (view and manage billing)." |}.

Definition backTool : Tool :=
  {| name := "syncro_back";
     description := "Navigate back to the main menu to select a different domain" |}.

Definition statusTool : Tool :=
  {| name := "syncro_status";
     description := "Show current navigation state and available domains. Also verifies API credentials are configured." |}.

(** The [TypeError] of reading [.domain] off [undefined], in the wording of
    the V8 engine Node runs on. *)
Definition undefinedArgsError : Js.thrown :=
  Js.Error "Cannot read properties of undefined (reading 'domain')".

(** [(args as { domain: string }).domain] *)
Definition argsDomain {S} (args : Args) : SE S Js.value :=
  match args with
  | None => throw undefinedArgsError
  | Some bag => ret (default Js.Undefined (bag !! "domain"))
  end.

(** [domainTools.map((t) => `- ${t.name}: ${t.description}`).join("\n")] *)
Definition toolLines (domainTools : list Tool) : string :=
  Js.join Js.nl
    (List.map (fun t => "- " +:+ name t +:+ ": " +:+ description t)
       domainTools).

Section Server.

Variable importDomain : DomainName -> Completion DomainHandler.

(** [getToolsForState()], which the ListTools handler returns as is. *)
Definition getToolsForState : SE Process (list Tool) :=
  let* p := get in
  let tools := [statusTool] in
  match currentDomain p with
  | None => ret (navigateTool :: tools)
  | Some domain =>
      let tools := backTool :: tools in
      let* handler := onDomainCache (getDomainHandler importDomain domain) in
      let domainTools := getTools handler in
      ret (tools ++ domainTools)
  end.

(** The body of the [try] block of the CallTool handler. *)
Definition callToolBody (request_name : string) (args : Args)
    : SE Process CallToolResult :=
  if String.eqb request_name "syncro_navigate" then
    let* domain := argsDomain args in
    match (if isDomainName domain then asDomainName domain else None) with
    | None =>
        let* rendered := settle (templateText domain) in
        ret (errorResult
               ("Invalid domain: " +:+ rendered
                +:+ ". Available domains: " +:+ availableDomainsText))
    | Some domain =>
        let* p := get in
        match getCredentials (env p) with
        | None =>
            ret (errorResult
                   "Error: No API credentials configured. Please set SYNCRO_API_KEY environment variable.")
        | Some creds =>
            let* _ := modify (set_currentDomain (Some domain)) in
            let* handler :=
              onDomainCache (getDomainHandler importDomain domain) in
            let domainTools := getTools handler in
            ret (textResult
                   ("Navigated to " +:+ domainString domain
                    +:+ " domain." +:+ Js.nl +:+ Js.nl
                    +:+ "Available tools:" +:+ Js.nl
                    +:+ toolLines domainTools +:+ Js.nl +:+ Js.nl
                    +:+ "Use syncro_back to return to the main menu."))
        end
    end
  else if String.eqb request_name "syncro_back" then
    let* p := get in
    let previousDomain := currentDomain p in
    let* _ := modify (set_currentDomain None) in
    ret (textResult
           ("Navigated back from "
            +:+ match previousDomain with
                | Some d => domainString d
                | None => "root"
                end
            +:+ " to the main menu." +:+ Js.nl +:+ Js.nl
            +:+ "Available domains: " +:+ availableDomainsText
            +:+ Js.nl +:+ Js.nl
            +:+ "Use syncro_navigate to select a domain."))
  else if String.eqb request_name "syncro_status" then
    let* p := get in
    let credStatus :=
      match getCredentials (env p) with
      | Some creds =>
          "Configured"
          +:+ (if Js.truthy (subdomain creds)
               then " (subdomain: "
                    +:+ default EmptyString (subdomain creds) +:+ ")"
               else EmptyString)
      | None =>
          "NOT CONFIGURED - Please set SYNCRO_API_KEY environment variable"
      end in
    ret (textResult
           ("Syncro MCP Server Status" +:+ Js.nl +:+ Js.nl
            +:+ "Current domain: "
            +:+ match currentDomain p with
                | Some d => domainString d
                | None => "(none - at main menu)"
                end
            +:+ Js.nl +:+ "Credentials: " +:+ credStatus
            +:+ Js.nl +:+ "Available domains: " +:+ availableDomainsText
            +:+ Js.nl +:+ "Rate limit: 180 requests/minute"))
  else
    let* p := get in
    let toolNotFound : SE Process CallToolResult :=
      let* p := get in
      ret (errorResult
             match currentDomain p with
             | Some d =>
                 "Unknown tool: " +:+ request_name
                 +:+ ". You are currently in the " +:+ domainString d
                 +:+ " domain. Use syncro_back to return to the main menu."
             | None =>
                 "Unknown tool: " +:+ request_name
                 +:+ ". Use syncro_navigate to select a domain first."
             end) in
    match currentDomain p with
    | Some domain =>
        let* handler :=
          onDomainCache (getDomainHandler importDomain domain) in
        let domainTools := getTools handler in
        let toolExists :=
          existsb (fun t => String.eqb (name t) request_name) domainTools in
        if toolExists then
          let* _ := modify (record_event
                              (HandleCall domain request_name args)) in
          onClientModule (handleCall handler request_name args)
        else toolNotFound
    | None => toolNotFound
    end.

(** The CallTool handler: the body under its [catch].  What the [catch]
    clause itself throws leaves the handler. *)
Definition callTool (request_name : string) (args : Args)
    : SE Process CallToolResult :=
  tryCatch (callToolBody request_name args)
    (fun error =>
       let* message := settle (messageOf error) in
       ret (errorResult ("Error: " +:+ message))).

End Server.

(** ** index.ts: the HTTP listener *)

(** A header value of Node's [IncomingMessage]: [string | string[]]. *)
Inductive HeaderValue :=
| Single (s : string)
| Multiple (l : list string).

(** The part of an incoming request the listener reads: [req.url], the
    request target as it came in the request line, and the header table. *)
Record IncomingMessage := {
  url : option string;
  headers : gmap string HeaderValue
}.

(** Truthiness of [headers[name]]: an array is an object, hence truthy. *)
Definition headerTruthy (v : option HeaderValue) : bool :=
  match v with
  | Some (Single s) => Js.truthy (Some s)
  | Some (Multiple _) => true
  | None => false
  end.

(** The local [getHeader] of [applyGatewayCredentials]. *)
Definition getHeader (headers : gmap string HeaderValue) (name : string)
    : option string :=
  let value :=
    if headerTruthy (headers !! name) then headers !! name
    else headers !! Js.toLowerCase name in
  match value with
  | Some (Multiple l) => head l
  | Some (Single s) => Some s
  | None => None
  end.

(** [applyGatewayCredentials(req)]: the new [process.env] and the boolean
    returned.  [Some (String _ _)] is a header that passes [if (x)], anything
    else one that passes [if (!x)]. *)
Definition applyGatewayCredentials (req : IncomingMessage)
    (env : gmap string string) : gmap string string * bool :=
  let apiKey := getHeader (headers req) "x-syncro-api-key" in
  let subdomain := getHeader (headers req) "x-syncro-subdomain" in
  match apiKey with
  | Some (String c k) =>
      let env := <["SYNCRO_API_KEY" := String c k]> env in
      let env :=
        match subdomain with
        | Some (String c' s) => <["SYNCRO_SUBDOMAIN" := String c' s]> env
        | _ => env
        end in
      (env, true)
  | _ => (env, false)
  end.

(** A JSON value of the listener's response bodies. *)
Inductive Json :=
| JString (s : string)
| JArray (items : list string).

(** What the listener does with a request: it writes a status and a JSON
    body itself, or it passes the request on
    ([transport.handleRequest(req, res)]), from where the protocol handlers
    are dispatched, or it throws.  Nothing catches what the listener throws:
    it reaches the [uncaughtException] handler of the process, which logs
    it and calls [process.exit(1)], and the request gets no response. *)
Inductive HttpOutcome :=
| Respond (status : nat) (body : list (string * Json))
| HandleRequest
| Uncaught (e : Js.thrown).

(** [process.env.AUTH_MODE === "gateway"], read once when the transport
    starts. *)
Definition isGatewayMode (env : gmap string string) : bool :=
  bool_decide (env !! "AUTH_MODE" = Some "gateway").

Section Listener.

(** The URL parser of the platform.  [newURL input base] stands for
    [new URL(input, base)] as far as the listener uses it: the [pathname]
    of the parsed URL, or the [TypeError] the constructor throws when
    [input] does not parse against [base]. *)
Variable newURL : string -> string -> Completion string.

(** [new URL(req.url || "/", `http://${req.headers.host || "localhost"}`)]
    and its [pathname].  A header that came as an array is truthy and is
    spliced in as its elements joined by commas. *)
Definition urlPathname (req : IncomingMessage) : Completion string :=
  let input :=
    match url req with
    | Some (String c u) => String c u
    | _ => "/"
    end in
  let host :=
    match headers req !! "host" with
    | Some (Single (String c h)) => String c h
    | Some (Multiple l) => Js.join "," l
    | _ => "localhost"
    end in
  newURL input ("http://" +:+ host).

(** The request listener given to [createServer]; [now] is
    [new Date().toISOString()]. *)
Definition requestListener (isGatewayMode : bool) (now : string)
    (req : IncomingMessage) : Process -> Process * HttpOutcome :=
  fun p =>
    match urlPathname req with
    | Throw e => (p, Uncaught e)
    | Return pathname =>
        if String.eqb pathname "/health" then
          (p, Respond 200
                [("status", JString "ok");
                 ("transport", JString "http");
                 ("authMode",
                  JString (if isGatewayMode then "gateway" else "env"));
                 ("timestamp", JString now)])
        else if String.eqb pathname "/mcp" then
          if isGatewayMode then
            match applyGatewayCredentials req (env p) with
            | (env', true) => (set_env env' p, HandleRequest)
            | (env', false) =>
                (set_env env' p,
                 Respond 401
                   [("error", JString "Missing credentials");
                    ("message",
                     JString "Gateway mode requires X-Syncro-API-Key header");
                    ("required", JArray ["X-Syncro-API-Key"]);
                    ("optional", JArray ["X-Syncro-Subdomain"])])
            end
          else (p, HandleRequest)
        else
          (p, Respond 404
                [("error", JString "Not found");
                 ("endpoints", JArray ["/mcp"; "/health"])])
    end.

End Listener.

(** A session: protocol requests and HTTP requests reaching the process,
    in the order they are served.  An exception of the listener ends the
    process; [serve] goes on from the state it left, so that the sessions
    of the model include every session of a process. *)
Inductive Request :=
| ListTools
| CallTool (request_name : string) (args : Args)
| Http (isGatewayMode : bool) (now : string) (req : IncomingMessage).

Definition serve (importDomain : DomainName -> Completion DomainHandler)
    (newURL : string -> string -> Completion string)
    (r : Request) (p : Process) : Process :=
  match r with
  | ListTools => fst (getToolsForState importDomain p)
  | CallTool request_name args =>
      fst (callTool importDomain request_name args p)
  | Http gw now req => fst (requestListener newURL gw now req p)
  end.

(** ** The Cloudflare Workers adapter *)

Module Worker.

(** The [Env] bindings of the worker. *)
Record Env := {
  SYNCRO_API_KEY : string;
  SYNCRO_SUBDOMAIN : option string;
  AUTH_MODE : option string
}.

(** The two properties the adapter writes on [globalThis]; [None] is a
    property that is absent or [undefined]. *)
Record Globals := {
  __SYNCRO_API_KEY : option string;
  __SYNCRO_SUBDOMAIN : option string
}.

(** The part of a Fetch [Request] the adapter reads: the [pathname] of
    [new URL(request.url)] and the [Headers] object, which keeps its names
    in lower case. *)
Record Request := {
  pathname : string;
  headers : gmap string string
}.

(** [request.headers.get(name)]: the lookup lower-cases the name. *)
Definition headers_get (request : Request) (name : string) : option string :=
  headers request !! Js.toLowerCase name.

Record Response := {
  status : nat;
  body : list (string * Json)
}.

(** [healthResponse(env)]; [now] is [new Date().toISOString()]. *)
Definition healthResponse (now : string) (env : Env) : Response :=
  {| status := 200;
     body :=
       [("status", JString "ok");
        ("transport", JString "http");
        ("authMode",
         JString (if bool_decide (AUTH_MODE env = Some "gateway")
                  then "gateway" else "env"));
        ("timestamp", JString now)] |}.

(** [notFoundResponse()] *)
Definition notFoundResponse : Response :=
  {| status := 404;
     body :=
       [("error", JString "Not found");
        ("endpoints", JArray ["/mcp"; "/health"])] |}.

(** The [fetch] handler.  The server and the transport it constructs for
    the request are connected and then dropped; [server.connect] resolves. *)
Definition fetch (now : string) (request : Request) (env : Env)
    : Globals -> Globals * Response :=
  fun g =>
    if String.eqb (pathname request) "/health" then
      (g, healthResponse now env)
    else if String.eqb (pathname request) "/mcp" then
      let g :=
        {| __SYNCRO_API_KEY := Some (SYNCRO_API_KEY env);
           __SYNCRO_SUBDOMAIN := SYNCRO_SUBDOMAIN env |} in
      let adapterMissing :=
        {| status := 501;
           body :=
             [("error",
               JString "Worker MCP transport requires framework adapter");
              ("message",
               JString
                 ("Use the Node.js HTTP transport for full MCP functionality. "
                  +:+ "Worker support requires an adapter layer for StreamableHTTPServerTransport."))] |} in
      if bool_decide (AUTH_MODE env = Some "gateway") then
        let apiKey := headers_get request "x-syncro-api-key" in
        if negb (Js.truthy apiKey) then
          (g, {| status := 401;
                 body :=
                   [("error", JString "Missing credentials");
                    ("message",
                     JString "Gateway mode requires X-Syncro-API-Key header");
                    ("required", JArray ["X-Syncro-API-Key"]);
                    ("optional", JArray ["X-Syncro-Subdomain"])] |})
        else
          let g :=
            {| __SYNCRO_API_KEY := apiKey;
               __SYNCRO_SUBDOMAIN := __SYNCRO_SUBDOMAIN g |} in
          let subdomain := headers_get request "x-syncro-subdomain" in
          let g :=
            if Js.truthy subdomain
            then {| __SYNCRO_API_KEY := __SYNCRO_API_KEY g;
                    __SYNCRO_SUBDOMAIN := subdomain |}
            else g in
          (g, adapterMissing)
      else (g, adapterMissing)
    else (g, notFoundResponse).

End Worker.

(** ** The routing the HTTP transport tests run *)

Module HttpTest.

(** The test file's own [applyGatewayCredentials]: it reads the tenant
    header after it has stored the API key. *)
Definition applyGatewayCredentials (req : IncomingMessage)
    (env : gmap string string) : gmap string string * bool :=
  let apiKey := getHeader (headers req) "x-syncro-api-key" in
  if negb (Js.truthy apiKey) then (env, false)
  else
    let env :=
      match apiKey with
      | Some apiKey => <["SYNCRO_API_KEY" := apiKey]> env
      | None => env
      end in
    let subdomain := getHeader (headers req) "x-syncro-subdomain" in
    let env :=
      if Js.truthy subdomain then
        match subdomain with
        | Some subdomain => <["SYNCRO_SUBDOMAIN" := subdomain]> env
        | None => env
        end
      else env in
    (env, true).

(** The listener of [createTestServer(isGatewayMode)], which answers a
    request that passed the gate itself instead of passing it on.  It
    parses the URL as the server does, with [newURL] the parser of the
    platform. *)
Definition createTestServer
    (newURL : string -> string -> Completion string)
    (isGatewayMode : bool) (now : string)
    (req : IncomingMessage) (env : gmap string string)
    : gmap string string * HttpOutcome :=
  match urlPathname newURL req with
  | Throw e => (env, Uncaught e)
  | Return pathname =>
      if String.eqb pathname "/health" then
        (env, Respond 200
                [("status", JString "ok");
                 ("transport", JString "http");
                 ("authMode",
                  JString (if isGatewayMode then "gateway" else "env"));
                 ("timestamp", JString now)])
      else if String.eqb pathname "/mcp" then
        let reached :=
          Respond 200 [("status", JString "mcp-endpoint-reached")] in
        if isGatewayMode then
          match applyGatewayCredentials req env with
          | (env', true) => (env', reached)
          | (env', false) =>
              (env',
               Respond 401
                 [("error", JString "Missing credentials");
                  ("message",
                   JString "Gateway mode requires X-Syncro-API-Key header");
                  ("required", JArray ["X-Syncro-API-Key"]);
                  ("optional", JArray ["X-Syncro-Subdomain"])])
          end
        else (env, reached)
      else
        (env, Respond 404
                [("error", JString "Not found");
                 ("endpoints", JArray ["/mcp"; "/health"])])
  end.

End HttpTest.

(** ** The texts and invariants the properties speak about *)

(** The answer of [syncro_back] when [previous] is what
    [previousDomain || "root"] gave. *)
Definition backText (previous : string) : string :=
  "Navigated back from " +:+ previous +:+ " to the main menu."
  +:+ Js.nl +:+ Js.nl
  +:+ "Available domains: customers, tickets, assets, contacts, invoices"
  +:+ Js.nl +:+ Js.nl +:+ "Use syncro_navigate to select a domain.".

(** The answer of [syncro_navigate] to a value that is no domain name and
    that the template literal renders as [rendered]. *)
Definition invalidDomainText (rendered : string) : string :=
  "Invalid domain: " +:+ rendered
  +:+ ". Available domains: customers, tickets, assets, contacts, invoices".

(** What the CallTool handler answers when the body of its [try] settled
    as [outcome]: a result as it is; a thrown [Error] or a thrown value
    with a string conversion as the error result carrying its message; a
    thrown value without one as the [TypeError] that leaves the [catch]
    clause. *)
Definition dispatchAnswer (outcome : Completion CallToolResult)
    : Completion CallToolResult :=
  match outcome with
  | Return result => Return result
  | Throw (Js.Error message) | Throw (Js.NonError message) =>
      Return {| content := [Text ("Error: " +:+ message)]; isError := true |}
  | Throw (Js.Unconvertible typeError) => Throw (Js.Error typeError)
  end.

Definition noCredentialsText : string :=
  "Error: No API credentials configured. Please set SYNCRO_API_KEY environment variable.".

(** The names the dispatcher answers itself. *)
Definition reservedNames : list string :=
  ["syncro_navigate"; "syncro_back"; "syncro_status"].

(** The two wordings of the unknown-tool answer. *)
Definition unknownToolText (request_name : string)
    (current : option DomainName) : string :=
  match current with
  | Some d =>
      "Unknown tool: " +:+ request_name +:+ ". You are currently in the "
      +:+ domainString d
      +:+ " domain. Use syncro_back to return to the main menu."
  | None =>
      "Unknown tool: " +:+ request_name
      +:+ ". Use syncro_navigate to select a domain first."
  end.

(** The tool list each handler module of the repository exports. *)
Definition toolsOf (d : DomainName) : list Tool :=
  match d with
  | customers => customersTools
  | tickets => ticketsTools
  | assets => assetsTools
  | contacts => contactsTools
  | invoices => invoicesTools
  end.

(** Every cached handler is the one its module exports: [domainCache] is
    only ever written by [getDomainHandler]. *)
Definition cacheLoadedFrom
    (importDomain : DomainName -> Completion DomainHandler)
    (cache : gmap DomainName DomainHandler) : Prop :=
  forall d h, cache !! d = Some h -> importDomain d = Return h.

(** [_client] is only ever set together with [_credentials], to an object
    constructed earlier. *)
Definition clientModuleOk (m : ClientModule) : Prop :=
  match _client m with
  | Some c => is_Some (_credentials m) /\ ref c < constructed m
  | None => True
  end.

(** Successive [getClient()] calls, the i-th one made while [process.env]
    is the i-th environment of the list; the clients they resolved to. *)
Fixpoint getClients (envs : list (gmap string string)) (m : ClientModule)
    : list SyncroClient :=
  match envs with
  | [] => []
  | env :: rest =>
      match getClient env m with
      | (m', Return c) => c :: getClients rest m'
      | (m', Throw _) => getClients rest m'
      end
  end.

(** The protocol requests, which reach the server's handlers. *)
Definition isProtocolRequest (r : Request) : bool :=
  match r with
  | ListTools | CallTool _ _ => true
  | Http _ _ _ => false
  end.

(** [r] is older than every client the module can still hand out. *)
Definition outdated (r : nat) (m : ClientModule) : Prop :=
  r < constructed m /\ forall c, _client m = Some c -> r < ref c.

(** The computation [m] never changes the part [f] of the state. *)
Definition keeps {S A X : Type} (f : S -> X) (m : SE S A) : Prop :=
  forall s, f (fst (m s)) = f s.

(** The computation [m] never breaks the invariant [I] of the state. *)
Definition maintains {S A : Type} (I : S -> Prop) (m : SE S A) : Prop :=
  forall s, I s -> I (fst (m s)).

(** [cacheLoadedFrom] as a property of the process. *)
Definition cacheOk (importDomain : DomainName -> Completion DomainHandler)
    (p : Process) : Prop :=
  cacheLoadedFrom importDomain (domainCache p).

(** The invariant of a process that runs the handler modules of the
    repository. *)
Definition processOk
    (api : SyncroClient -> string -> gmap string Js.value -> Completion string)
    (p : Process) : Prop :=
  cacheLoadedFrom (repositoryModules api) (domainCache p)
  /\ clientModuleOk (clientModule p).

(** [process.env] after [applyGatewayCredentials] has taken the API key [a]
    and the tenant header, if any, from [req]. *)
Definition gatewayEnv (req : IncomingMessage) (a : string)
    (e : gmap string string) : gmap string string :=
  match getHeader (headers req) "x-syncro-subdomain" with
  | Some (String c s) =>
      <["SYNCRO_SUBDOMAIN" := String c s]> (<["SYNCRO_API_KEY" := a]> e)
  | _ => <["SYNCRO_API_KEY" := a]> e
  end.

(** ** A sample deployment, for running the definitions *)

(** A remote side on which the lookup of a ticket fails with an [Error],
    the two searches fail as on a network error, and every other call gets
    a reply without the fields the case reads ([{ meta: {} }] for a list,
    [{}] for a record), the text of which is that of the empty object. *)
Definition sampleApi (client : SyncroClient) (toolName : string)
    (bag : gmap string Js.value) : Completion string :=
  if String.eqb toolName "syncro_tickets_get"
  then Throw (Js.Error "Ticket not found")
  else if bool_decide
            (toolName ∈ ["syncro_customers_search"; "syncro_assets_search"])
  then Throw (Js.Error "fetch failed")
  else Return "{}".



(** The outcomes of [new URL(input, base)] on the request targets of the
    examples, all against the base [http://localhost]: each of the three
    targets that are paths is its own [pathname], and [//], a target with
    an empty host, does not parse.  Nothing else of the parser enters the
    examples; what is not listed here is given the answer of [//]. *)
Definition sampleNewURL (input base : string) : Completion string :=
  if bool_decide (base = "http://localhost"
                  /\ input ∈ ["/"; "/mcp"; "/health"])
  then Return input
  else Throw (Js.Error "Invalid URL").

Definition sampleEnv : gmap string string :=
  {[ "SYNCRO_API_KEY" := "key-one" ]}.

Definition navigateTo (d : DomainName) : Args :=
  Some {[ "domain" := Js.Str (domainString d) ]}.

Definition mcpRequest (hs : gmap string HeaderValue) : IncomingMessage :=
  {| url := Some "/mcp"; headers := hs |}.

(** The sample process after it has navigated to the tickets domain. *)
Definition sampleInTickets : Process :=
  fst (callTool (repositoryModules sampleApi) "syncro_navigate"
         (navigateTo tickets) (startProcess sampleEnv)).

(** The same, when the API key has since been removed from the
    environment. *)
Definition sampleInTicketsNoKey : Process := set_env ∅ sampleInTickets.


(** Two sample environments that differ from [sampleEnv] in one field
    each. *)
Definition sampleEnvOtherKey : gmap string string :=
  {[ "SYNCRO_API_KEY" := "key-two" ]}.

Definition sampleEnvTenant : gmap string string :=
  {[ "SYNCRO_API_KEY" := "key-one"; "SYNCRO_SUBDOMAIN" := "acme" ]}.

(** A module system in which no handler module can be imported. *)
Definition brokenModules (domain : DomainName) : Completion DomainHandler :=
  Throw (Js.Error "Cannot find module").

(** ** Vocabulary of the further properties *)

(** The cached client was constructed from the cached credentials. *)
Definition clientBound (m : ClientModule) : Prop :=
  forall k, _client m = Some k -> _credentials m = Some (config k).

(** The handler each module of the repository exports. *)
Definition handlerOf
    (api : SyncroClient -> string -> gmap string Js.value -> Completion string)
    (d : DomainName) : DomainHandler :=
  match d with
  | customers => customersHandler api
  | tickets => ticketsHandler api
  | assets => assetsHandler api
  | contacts => contactsHandler api
  | invoices => invoicesHandler api
  end.

(** How the [default] branch of each handler starts its answer. *)
Definition unknownToolPrefix (d : DomainName) : string :=
  match d with
  | customers => "Unknown customer tool: "
  | tickets => "Unknown ticket tool: "
  | assets => "Unknown asset tool: "
  | contacts => "Unknown contact tool: "
  | invoices => "Unknown invoice tool: "
  end.

(** The property of [args] that the [case] of each tool reads first. *)
Definition firstRead (toolName : string) : string :=
  Js.switch toolName
    [("syncro_customers_list", "query");
     ("syncro_customers_get", "customer_id");
     ("syncro_customers_create", "business_name");
     ("syncro_customers_search", "query");
     ("syncro_tickets_list", "customer_id");
     ("syncro_tickets_get", "ticket_id");
     ("syncro_tickets_create", "customer_id");
     ("syncro_tickets_update", "ticket_id");
     ("syncro_tickets_add_comment", "ticket_id");
     ("syncro_assets_list", "customer_id");
     ("syncro_assets_get", "asset_id");
     ("syncro_assets_search", "limit");
     ("syncro_contacts_list", "customer_id");
     ("syncro_contacts_get", "contact_id");
     ("syncro_contacts_create", "customer_id");
     ("syncro_invoices_list", "customer_id");
     ("syncro_invoices_get", "invoice_id");
     ("syncro_invoices_create", "customer_id");
     ("syncro_invoices_email", "invoice_id")]
    EmptyString.

(** What the [case] of a listed tool comes to when the call carries
    [args] and the remote call it makes with an argument bag settles as
    [remote] says: without arguments, the [TypeError] of the first read;
    a failure of the remote call, thrown on; its rendered reply as the
    text of a result without the error flag; and for
    [syncro_invoices_email], which drops the reply, the success notice
    naming the invoice id, or the [TypeError] of an id that has no string
    conversion. *)
Definition caseAnswer (toolName : string) (args : Args)
    (remote : gmap string Js.value -> Completion string)
    : Completion CallToolResult :=
  match args with
  | None =>
      Throw (Js.Error ("Cannot read properties of undefined (reading '"
                       +:+ firstRead toolName +:+ "')"))
  | Some bag =>
      match remote bag with
      | Throw err => Throw err
      | Return text =>
          if String.eqb toolName "syncro_invoices_email" then
            match default Js.Undefined (bag !! "invoice_id") with
            | Js.Undefined =>
                Return
                  {| content :=
                       [Text (successNotice
                                "Invoice undefined has been emailed to the customer")];
                     isError := false |}
            | Js.Str id | Js.Other id =>
                Return
                  {| content :=
                       [Text (successNotice
                                ("Invoice " +:+ id
                                 +:+ " has been emailed to the customer"))];
                     isError := false |}
            | Js.Unprintable typeError => Throw (Js.Error typeError)
            end
          else Return {| content := [Text text]; isError := false |}
      end
  end.

(** The cases of a handler never write the client module. *)
Definition casesKeepState
    (cases :
       list (string * (SyncroClient -> Args -> SE ClientModule CallToolResult)))
    : Prop :=
  Forall (fun c => forall client args m, fst (snd c client args m) = m) cases.

Definition noCredentialsProvided : Js.thrown :=
  Js.Error
    "No API credentials provided. Please configure SYNCRO_API_KEY environment variable.".

(** A module system in which the tickets module is a mock with one tool. *)
Definition mockModules (domain : DomainName) : Completion DomainHandler :=
  Return {| getTools := [ {| name := "syncro_tickets_list";
                             description := "mock" |} ];
            handleCall := fun _ _ _ => ret (textResult "mocked") |}.

(** * Properties *)

(** ** Domain names *)

Lemma isDomainName_domainString (d : DomainName) :
  isDomainName (Js.Str (domainString d)) = true.
Proof. destruct d; reflexivity. Qed.

Lemma asDomainName_domainString (d : DomainName) :
  asDomainName (Js.Str (domainString d)) = Some d.
Proof. destruct d; reflexivity. Qed.

Lemma asDomainName_Some (v : Js.value) (d : DomainName) :
  asDomainName v = Some d -> v = Js.Str (domainString d).
Proof.
  destruct v as [|s|r|why]; try discriminate.
  unfold asDomainName. intros H. apply List.find_some in H as [_ H].
  apply String.eqb_eq in H. by subst.
Qed.

(** The guard accepts exactly the values the narrowing has a domain for. *)
Lemma isDomainName_asDomainName (v : Js.value) :
  isDomainName v = true <-> is_Some (asDomainName v).
Proof.
  split.
  - destruct v as [|s|r|why]; simpl; try discriminate.
    intros H. apply bool_decide_eq_true in H.
    repeat (apply elem_of_cons in H as [->|H]; [by eexists|]).
    by apply elem_of_nil in H.
  - intros [d H]. apply asDomainName_Some in H as ->.
    apply isDomainName_domainString.
Qed.

Lemma availableDomainsText_eq :
  availableDomainsText = "customers, tickets, assets, contacts, invoices".
Proof. reflexivity. Qed.

(** ** Navigation *)

Section Navigation.

Variable importDomain : DomainName -> Completion DomainHandler.

Lemma callTool_back (p : Process) (args : Args) :
  callTool importDomain "syncro_back" args p =
    (set_currentDomain None p,
     Return (textResult
               (backText match currentDomain p with
                         | Some d => domainString d
                         | None => "root"
                         end))).
Proof. reflexivity. Qed.

(** [syncro_status] changes nothing. *)
Lemma callTool_status_state (p : Process) (args : Args) :
  fst (callTool importDomain "syncro_status" args p) = p.
Proof. reflexivity. Qed.

Lemma getToolsForState_root (p : Process) :
  currentDomain p = None ->
  getToolsForState importDomain p = (p, Return [navigateTool; statusTool]).
Proof.
  intros H. unfold getToolsForState, bind, get. simpl. by rewrite H.
Qed.

(** The value [syncro_navigate] reads as its [domain]. *)
Lemma callTool_navigate_invalid (p : Process) (bag : gmap string Js.value) :
  let domain := default Js.Undefined (bag !! "domain") in
  isDomainName domain = false ->
  callTool importDomain "syncro_navigate" (Some bag) p =
    (p, match domain with
        | Js.Unprintable typeError =>
            Return (errorResult ("Error: " +:+ typeError))
        | Js.Undefined => Return (errorResult (invalidDomainText "undefined"))
        | Js.Str rendered | Js.Other rendered =>
            Return (errorResult (invalidDomainText rendered))
        end).
Proof.
  intros domain H.
  unfold callTool, tryCatch, callToolBody, argsDomain, bind, ret. simpl.
  fold domain. rewrite H. by destruct domain.
Qed.

Lemma callTool_navigate_no_arguments (p : Process) :
  callTool importDomain "syncro_navigate" None p =
    (p, Return (errorResult
                  "Error: Cannot read properties of undefined (reading 'domain')")).
Proof. reflexivity. Qed.

Lemma callTool_navigate_no_credentials (p : Process)
    (bag : gmap string Js.value) (d : DomainName) :
  bag !! "domain" = Some (Js.Str (domainString d)) ->
  getCredentials (env p) = None ->
  callTool importDomain "syncro_navigate" (Some bag) p =
    (p, Return (errorResult noCredentialsText)).
Proof.
  intros Hbag Hcreds.
  unfold callTool, tryCatch, callToolBody, argsDomain, bind, ret, get.
  cbn -[isDomainName asDomainName getCredentials].
  rewrite Hbag. cbn -[isDomainName asDomainName getCredentials].
  rewrite isDomainName_domainString, asDomainName_domainString.
  by rewrite Hcreds.
Qed.

(** What [syncro_navigate] does once the domain and the credentials have
    passed: the assignment, then the handler lookup. *)
Lemma callTool_navigate_valid (p : Process) (bag : gmap string Js.value)
    (d : DomainName) :
  bag !! "domain" = Some (Js.Str (domainString d)) ->
  is_Some (getCredentials (env p)) ->
  callTool importDomain "syncro_navigate" (Some bag) p =
    match getDomainHandler importDomain d (domainCache p) with
    | (cache, Return handler) =>
        (set_domainCache cache (set_currentDomain (Some d) p),
         Return (textResult
                   ("Navigated to " +:+ domainString d +:+ " domain."
                    +:+ Js.nl +:+ Js.nl +:+ "Available tools:" +:+ Js.nl
                    +:+ toolLines (getTools handler) +:+ Js.nl +:+ Js.nl
                    +:+ "Use syncro_back to return to the main menu.")))
    | (cache, Throw e) =>
        (set_domainCache cache (set_currentDomain (Some d) p),
         dispatchAnswer (Throw e))
    end.
Proof.
  intros Hbag [creds Hcreds].
  unfold callTool, tryCatch, callToolBody, argsDomain, bind, ret, get.
  cbn -[isDomainName asDomainName getCredentials].
  rewrite Hbag. cbn -[isDomainName asDomainName getCredentials].
  rewrite isDomainName_domainString, asDomainName_domainString.
  rewrite Hcreds. unfold modify, onDomainCache.
  cbn -[getDomainHandler].
  destruct (getDomainHandler importDomain d (domainCache p)) as [c [h|e]];
    [done|].
  by destruct e.
Qed.

End Navigation.

(** ** The handler registry *)

Section RegistryFacts.

Variable importDomain : DomainName -> Completion DomainHandler.

Lemma getDomainHandler_cached (d : DomainName) (h : DomainHandler)
    (cache : gmap DomainName DomainHandler) :
  cache !! d = Some h ->
  getDomainHandler importDomain d cache = (cache, Return h).
Proof. intros H. unfold getDomainHandler. by rewrite H. Qed.

(** A handler that was resolved once is resolved to the same object, and
    without another import, from then on. *)
Lemma getDomainHandler_memo (d : DomainName) (h : DomainHandler)
    (cache cache' : gmap DomainName DomainHandler) :
  getDomainHandler importDomain d cache = (cache', Return h) ->
  cache' !! d = Some h.
Proof.
  unfold getDomainHandler.
  destruct (cache !! d) as [cached|] eqn:Hc.
  - intros [= <- <-]. exact Hc.
  - destruct (importDomain d) as [handler|e]; intros [= <- <-].
    apply lookup_insert_eq.
Qed.

Lemma getDomainHandler_throw (d : DomainName) (e : Js.thrown)
    (cache cache' : gmap DomainName DomainHandler) :
  getDomainHandler importDomain d cache = (cache', Throw e) ->
  cache' = cache /\ cache !! d = None /\ importDomain d = Throw e.
Proof.
  unfold getDomainHandler.
  destruct (cache !! d) as [cached|] eqn:Hc; [discriminate|].
  destruct (importDomain d) as [handler|e']; [discriminate|].
  by intros [= <- <-].
Qed.

Lemma getDomainHandler_loaded (d : DomainName) (h : DomainHandler)
    (cache : gmap DomainName DomainHandler) :
  cacheLoadedFrom importDomain cache ->
  importDomain d = Return h ->
  exists cache',
    getDomainHandler importDomain d cache = (cache', Return h)
    /\ cache' !! d = Some h
    /\ cacheLoadedFrom importDomain cache'.
Proof.
  intros Hok Himp. unfold getDomainHandler.
  destruct (cache !! d) as [cached|] eqn:Hc.
  - pose proof (Hok _ _ Hc) as Hcached. rewrite Himp in Hcached.
    injection Hcached as <-. by exists cache.
  - rewrite Himp. exists (<[d := h]> cache). split; [done|]. split.
    + apply lookup_insert_eq.
    + intros d' h'. destruct (decide (d = d')) as [<-|Hne].
      * rewrite lookup_insert_eq. by intros [= <-].
      * rewrite lookup_insert_ne by done. apply Hok.
Qed.

Lemma cacheLoadedFrom_getDomainHandler (d : DomainName)
    (cache : gmap DomainName DomainHandler) :
  cacheLoadedFrom importDomain cache ->
  cacheLoadedFrom importDomain (fst (getDomainHandler importDomain d cache)).
Proof.
  intros Hok. unfold getDomainHandler.
  destruct (cache !! d) as [cached|] eqn:Hc; [done|].
  destruct (importDomain d) as [h|e] eqn:Himp; [|done].
  intros d' h'. simpl. destruct (decide (d = d')) as [<-|Hne].
  - rewrite lookup_insert_eq. by intros [= <-].
  - rewrite lookup_insert_ne by done. apply Hok.
Qed.

Lemma cacheLoadedFrom_empty : cacheLoadedFrom importDomain ∅.
Proof. intros d h. by rewrite lookup_empty. Qed.

Lemma set_domainCache_same (p : Process) :
  set_domainCache (domainCache p) p = p.
Proof. by destruct p. Qed.

Lemma getToolsForState_domain (p : Process) (d : DomainName)
    (h : DomainHandler) :
  currentDomain p = Some d ->
  domainCache p !! d = Some h ->
  getToolsForState importDomain p =
    (p, Return (backTool :: statusTool :: getTools h)).
Proof.
  intros Hd Hc. unfold getToolsForState, bind, get, onDomainCache, ret.
  cbn -[getDomainHandler]. rewrite Hd.
  rewrite (getDomainHandler_cached _ _ _ Hc).
  by rewrite set_domainCache_same.
Qed.

End RegistryFacts.

Lemma repositoryModules_tools api (d : DomainName) (h : DomainHandler) :
  repositoryModules api d = Return h -> getTools h = toolsOf d.
Proof. destruct d; intros [= <-]; reflexivity. Qed.

Lemma repositoryModules_resolve api (d : DomainName) :
  exists h, repositoryModules api d = Return h.
Proof. destruct d; by eexists. Qed.

(** ** The navigation state machine *)

(** C1. For every domain [d] of the closed set, with credentials
    resolvable, [syncro_navigate] to [d] from any navigation state succeeds,
    leaves the state at [d], and the tools listed next are exactly the back
    tool, the status tool and then the tools of [d], in this order. *)
Theorem navigate_enters_domain api (p : Process)
    (bag : gmap string Js.value) (d : DomainName) :
  cacheLoadedFrom (repositoryModules api) (domainCache p) ->
  bag !! "domain" = Some (Js.Str (domainString d)) ->
  is_Some (getCredentials (env p)) ->
  exists p' result,
    callTool (repositoryModules api) "syncro_navigate" (Some bag) p
      = (p', Return result)
    /\ isError result = false
    /\ currentDomain p' = Some d
    /\ getToolsForState (repositoryModules api) p'
       = (p', Return (backTool :: statusTool :: toolsOf d)).
Proof.
  intros Hcache Hbag Hcreds.
  rewrite (callTool_navigate_valid _ p bag d Hbag Hcreds).
  destruct (repositoryModules_resolve api d) as [h Hh].
  destruct (getDomainHandler_loaded _ d h _ Hcache Hh) as (c & -> & Hc & _).
  eexists _, _. split; [reflexivity|]. split; [reflexivity|].
  split; [reflexivity|].
  rewrite <- (repositoryModules_tools api d h Hh).
  apply (getToolsForState_domain _ _ d h); [reflexivity | exact Hc].
Qed.

Lemma navigate_enters_domain_witness :
  exists p' result,
    callTool (repositoryModules sampleApi) "syncro_navigate"
      (navigateTo tickets) (startProcess sampleEnv) = (p', Return result)
    /\ isError result = false
    /\ currentDomain p' = Some tickets
    /\ getToolsForState (repositoryModules sampleApi) p'
       = (p', Return (backTool :: statusTool :: toolsOf tickets)).
Proof.
  apply (navigate_enters_domain sampleApi (startProcess sampleEnv)
           {[ "domain" := Js.Str "tickets" ]} tickets).
  - intros d h. simpl. rewrite lookup_empty. discriminate.
  - reflexivity.
  - vm_compute. eexists. reflexivity.
Defined.

(** C5, as the claim states it, fails: a [domain] argument outside the
    closed set that has no string conversion (the object [{"toString": 1}]
    of a JSON request) makes the template literal of the answer throw, and
    the answer is the caught [TypeError], which lists no domain. *)
Lemma navigate_rejection_without_domain_list :
  let p := set_currentDomain (Some assets) (startProcess sampleEnv) in
  let domain := Js.Unprintable "Cannot convert object to primitive value" in
  isDomainName domain = false
  /\ callTool (repositoryModules sampleApi) "syncro_navigate"
       (Some {[ "domain" := domain ]}) p
     = (p, Return (errorResult
                     "Error: Cannot convert object to primitive value"))
  /\ String.index 0 "customers, tickets, assets, contacts, invoices"
       "Error: Cannot convert object to primitive value" = None.
Proof. vm_compute. done. Qed.

(** C5, amended.  [syncro_navigate] with a [domain] argument outside the
    closed set leaves the whole process state as it was and answers an
    error result; the result lists the five domains in their canonical
    order after the rendering of the argument whenever the argument has a
    string conversion (a missing argument renders as "undefined"), and
    carries the message of the conversion's [TypeError] when it has none;
    a call without an arguments object leaves the state as it was and
    answers the error result of the [TypeError] of reading [domain].  With
    a valid domain but no resolvable credentials the call leaves the state
    as it was and answers the error result that asks for the credentials
    to be configured. *)
Theorem navigate_rejections importDomain (p : Process) :
  (forall bag : gmap string Js.value,
     isDomainName (default Js.Undefined (bag !! "domain")) = false ->
     callTool importDomain "syncro_navigate" (Some bag) p =
       (p, Return
             {| content :=
                  [Text
                     match default Js.Undefined (bag !! "domain") with
                     | Js.Undefined =>
                         "Invalid domain: undefined. Available domains: customers, tickets, assets, contacts, invoices"
                     | Js.Str rendered | Js.Other rendered =>
                         "Invalid domain: " +:+ rendered
                         +:+ ". Available domains: customers, tickets, assets, contacts, invoices"
                     | Js.Unprintable typeError => "Error: " +:+ typeError
                     end];
                isError := true |}))
  /\ callTool importDomain "syncro_navigate" None p =
       (p, Return
             {| content :=
                  [Text "Error: Cannot read properties of undefined (reading 'domain')"];
                isError := true |})
  /\ (forall bag : gmap string Js.value,
        isDomainName (default Js.Undefined (bag !! "domain")) = true ->
        getCredentials (env p) = None ->
        callTool importDomain "syncro_navigate" (Some bag) p =
          (p, Return
                {| content :=
                     [Text "Error: No API credentials configured. Please set SYNCRO_API_KEY environment variable."];
                   isError := true |})).
Proof.
  split_and!.
  - intros bag H. rewrite (callTool_navigate_invalid _ p bag H).
    by destruct (default Js.Undefined (bag !! "domain")).
  - apply callTool_navigate_no_arguments.
  - intros bag Hvalid Hcreds.
    apply isDomainName_asDomainName in Hvalid as [d Hd].
    apply asDomainName_Some in Hd.
    destruct (bag !! "domain") as [v|] eqn:Hbag; simpl in Hd; [|discriminate].
    subst v. by apply (callTool_navigate_no_credentials _ p bag d).
Qed.

Lemma navigate_rejections_witness :
  callTool (repositoryModules sampleApi) "syncro_navigate"
    (Some {[ "domain" := Js.Str "unknown" ]})
    (set_currentDomain (Some assets) (startProcess sampleEnv))
  = (set_currentDomain (Some assets) (startProcess sampleEnv),
     Return (errorResult
               "Invalid domain: unknown. Available domains: customers, tickets, assets, contacts, invoices"))
  /\ callTool (repositoryModules sampleApi) "syncro_navigate"
       (navigateTo customers) (startProcess ∅)
     = (startProcess ∅,
        Return (errorResult
                  "Error: No API credentials configured. Please set SYNCRO_API_KEY environment variable.")).
Proof.
  split.
  - exact (proj1 (navigate_rejections (repositoryModules sampleApi)
                    (set_currentDomain (Some assets)
                       (startProcess sampleEnv)))
             {[ "domain" := Js.Str "unknown" ]} eq_refl).
  - exact (proj2 (proj2 (navigate_rejections (repositoryModules sampleApi)
                           (startProcess ∅)))
             {[ "domain" := Js.Str "customers" ]} eq_refl eq_refl).
Defined.

(** C8. [syncro_back] from any navigation state leaves the state at the
    root, answers a result without the error flag that names the domain
    left (or "root" when there was none), and the tools listed next are
    exactly the navigate tool and the status tool. *)
Theorem back_returns_to_root importDomain (p : Process) (args : Args) :
  exists p',
    callTool importDomain "syncro_back" args p =
      (p', Return
             {| content :=
                  [Text (backText match currentDomain p with
                                  | Some d => domainString d
                                  | None => "root"
                                  end)];
                isError := false |})
    /\ currentDomain p' = None
    /\ getToolsForState importDomain p'
       = (p', Return [navigateTool; statusTool]).
Proof.
  exists (set_currentDomain None p). split; [apply callTool_back|].
  split; [reflexivity|]. by apply getToolsForState_root.
Qed.



(** ** The cached Syncro client *)

Lemma credentialsChanged_false (creds cached : SyncroCredentials) :
  credentialsChanged creds cached = false <-> creds = cached.
Proof.
  unfold credentialsChanged. destruct creds as [k s], cached as [k' s'].
  simpl. split.
  - intros H. apply orb_false_elim in H as [Hk Hs].
    apply negb_false_iff, bool_decide_eq_true in Hk, Hs. congruence.
  - intros [= -> ->]. by rewrite !bool_decide_eq_true_2.
Qed.

Lemma credentialsChanged_true (creds cached : SyncroCredentials) :
  credentialsChanged creds cached = true <-> creds <> cached.
Proof.
  rewrite <- not_false_iff_true. by rewrite credentialsChanged_false.
Qed.

Lemma clientModuleOk_fresh : clientModuleOk freshClientModule.
Proof. exact I. Qed.

Lemma clientModuleOk_clearClient (m : ClientModule) :
  clientModuleOk (clearClient m).
Proof. exact I. Qed.

(** One call of [getClient()] with resolvable credentials, from a module
    state the program can be in: the cached object when it was made from
    the same credentials, a newly constructed one otherwise. *)
Lemma getClient_resolved (env : gmap string string) (m : ClientModule)
    (creds : SyncroCredentials) :
  clientModuleOk m ->
  getCredentials env = Some creds ->
  exists m' k,
    getClient env m = (m', Return k)
    /\ _client m' = Some k
    /\ _credentials m' = Some creds
    /\ ref k < constructed m'.
Proof.
  intros Hok Hcreds. unfold getClient. rewrite Hcreds.
  unfold clientModuleOk in Hok.
  destruct (_client m) as [k0|] eqn:Hk0.
  - destruct Hok as [[c0 Hc0] Hlt]. rewrite Hc0.
    destruct (credentialsChanged creds c0) eqn:Hch; simpl.
    + eexists _, _. split; [reflexivity|]. simpl. split_and!; auto.
    + rewrite Hk0. apply credentialsChanged_false in Hch as ->.
      by eexists _, _.
  - rewrite Hk0. eexists _, _. split; [reflexivity|]. simpl.
    split_and!; auto.
Qed.

Lemma clientModuleOk_getClient (env : gmap string string)
    (m : ClientModule) :
  clientModuleOk m -> clientModuleOk (fst (getClient env m)).
Proof.
  intros Hok. destruct (getCredentials env) as [creds|] eqn:Hcreds.
  - destruct (getClient_resolved env m creds Hok Hcreds)
      as (m' & k & -> & Hk & Hc & Hlt).
    simpl. unfold clientModuleOk. rewrite Hk, Hc. by split.
  - unfold getClient. by rewrite Hcreds.
Qed.

(** The second of two calls, when the first left [k1] cached for [c1]. *)
Lemma getClient_again (env : gmap string string) (m : ClientModule)
    (k1 : SyncroClient) (c1 c2 : SyncroCredentials) :
  _client m = Some k1 ->
  _credentials m = Some c1 ->
  getCredentials env = Some c2 ->
  getClient env m =
    if credentialsChanged c2 c1
    then ({| _client := Some {| ref := constructed m; config := c2 |};
             _credentials := Some c2;
             constructed := S (constructed m) |},
          Return {| ref := constructed m; config := c2 |})
    else (m, Return k1).
Proof.
  intros Hk Hc Hcreds. unfold getClient. rewrite Hcreds, Hk, Hc.
  destruct (credentialsChanged c2 c1); simpl; [done|]. by rewrite Hk.
Qed.

Lemma outdated_getClient (r : nat) (env : gmap string string)
    (m : ClientModule) :
  outdated r m ->
  outdated r (fst (getClient env m))
  /\ forall k, snd (getClient env m) = Return k -> r < ref k.
Proof.
  intros [Hlt Hcached]. unfold getClient.
  destruct (getCredentials env) as [creds|]; [|by split].
  destruct (_client m) as [k0|] eqn:Hk0.
  - destruct (_credentials m) as [c0|].
    + destruct (credentialsChanged creds c0); simpl.
      * split; [split; simpl; [lia|]|]; by intros k [= <-].
      * rewrite Hk0. simpl. split; [split; [done|]|].
        -- by rewrite Hk0.
        -- intros k [= <-]. by apply Hcached.
    + rewrite Hk0. simpl. split; [split; [done|]|].
      * by rewrite Hk0.
      * intros k [= <-]. by apply Hcached.
  - rewrite Hk0. simpl. split; [split; simpl; [lia|]|]; by intros k [= <-].
Qed.

Lemma outdated_getClients (r : nat) (envs : list (gmap string string))
    (m : ClientModule) :
  outdated r m -> Forall (fun k => ref k <> r) (getClients envs m).
Proof.
  revert m. induction envs as [|env rest IH]; intros m Hout; simpl.
  - constructor.
  - destruct (outdated_getClient r env m Hout) as [Hnext Hret].
    destruct (getClient env m) as [m' [k|e]]; simpl in *.
    + constructor; [|by apply IH]. specialize (Hret k eq_refl). lia.
    + by apply IH.
Qed.

(** C2. Of two successive [getClient()] calls that resolve credentials [c1]
    and then [c2]: when the tuples are equal in both fields the second call
    returns the very object of the first; when they differ in either field
    it returns a newly constructed object, made from [c2], and no later
    call, whatever credentials it resolves, returns the first object
    again. *)
Theorem getClient_cache_follows_credentials (m : ClientModule)
    (env1 env2 : gmap string string) (c1 c2 : SyncroCredentials) :
  clientModuleOk m ->
  getCredentials env1 = Some c1 ->
  getCredentials env2 = Some c2 ->
  exists m1 k1 m2 k2,
    getClient env1 m = (m1, Return k1)
    /\ getClient env2 m1 = (m2, Return k2)
    /\ (c1 = c2 -> k2 = k1)
    /\ (c1 <> c2 ->
        ref k2 <> ref k1
        /\ config k2 = c2
        /\ forall later : list (gmap string string),
             Forall (fun k => ref k <> ref k1) (getClients later m2)).
Proof.
  intros Hok H1 H2.
  destruct (getClient_resolved env1 m c1 Hok H1)
    as (m1 & k1 & E1 & Hk1 & Hc1 & Hlt).
  exists m1, k1. rewrite (getClient_again env2 m1 k1 c1 c2 Hk1 Hc1 H2).
  destruct (credentialsChanged c2 c1) eqn:Hch.
  - apply credentialsChanged_true in Hch.
    eexists _, _. split; [exact E1|]. split; [reflexivity|]. split.
    + intros ->. by destruct Hch.
    + intros _. simpl. split; [lia|]. split; [done|].
      intros later. apply outdated_getClients. split; simpl; [lia|].
      by intros c [= <-].
  - apply credentialsChanged_false in Hch as ->.
    eexists _, _. split; [exact E1|]. split; [reflexivity|]. split; [done|].
    intros Hne. by destruct Hne.
Qed.

Lemma getClient_cache_follows_credentials_witness :
  exists m1 k1 m2 k2,
    getClient sampleEnv freshClientModule = (m1, Return k1)
    /\ getClient sampleEnvTenant m1 = (m2, Return k2)
    /\ ({| apiKey := "key-one"; subdomain := None |}
        = {| apiKey := "key-one"; subdomain := Some "acme" |} -> k2 = k1)
    /\ ({| apiKey := "key-one"; subdomain := None |}
        <> {| apiKey := "key-one"; subdomain := Some "acme" |} ->
        ref k2 <> ref k1
        /\ config k2 = {| apiKey := "key-one"; subdomain := Some "acme" |}
        /\ forall later : list (gmap string string),
             Forall (fun k => ref k <> ref k1) (getClients later m2)).
Proof.
  exact (getClient_cache_follows_credentials freshClientModule sampleEnv
           sampleEnvTenant {| apiKey := "key-one"; subdomain := None |}
           {| apiKey := "key-one"; subdomain := Some "acme" |}
           I eq_refl eq_refl).
Defined.

(** Five calls in a row: the same key twice, another key, the first key
    again, and the first key with a tenant qualifier. *)
Example getClients_run :
  List.map ref
    (getClients
       [sampleEnv; sampleEnv; sampleEnvOtherKey; sampleEnv; sampleEnvTenant]
       freshClientModule)
  = [0; 0; 1; 2; 3].
Proof. reflexivity. Qed.

(** ** What a computation leaves alone *)

Section Keeps.

Context {S X : Type} (f : S -> X).

Lemma keeps_ret {A} (a : A) : keeps f (ret a).
Proof. by intros s. Qed.

Lemma keeps_throw {A} (e : Js.thrown) : keeps f (@throw S A e).
Proof. by intros s. Qed.

Lemma keeps_get : keeps f get.
Proof. by intros s. Qed.

Lemma keeps_settle {A} (c : Completion A) : keeps f (settle c).
Proof. by intros s. Qed.

Lemma keeps_modify (g : S -> S) :
  (forall s, f (g s) = f s) -> keeps f (modify g).
Proof. intros H s. apply H. Qed.

Lemma keeps_bind {A B} (m : SE S A) (k : A -> SE S B) :
  keeps f m -> (forall a, keeps f (k a)) -> keeps f (bind m k).
Proof.
  intros Hm Hk s. unfold bind. specialize (Hm s).
  destruct (m s) as [s' [a|e]]; simpl in *; [|done].
  by rewrite Hk.
Qed.

Lemma keeps_tryCatch {A} (body : SE S A) (handler : Js.thrown -> SE S A) :
  keeps f body -> (forall e, keeps f (handler e)) ->
  keeps f (tryCatch body handler).
Proof.
  intros Hb Hh s. unfold tryCatch. specialize (Hb s).
  destruct (body s) as [s' [a|e]]; simpl in *; [done|].
  by rewrite Hh.
Qed.

End Keeps.

Lemma keeps_onDomainCache {A X} (f : Process -> X)
    (m : SE (gmap DomainName DomainHandler) A) :
  (forall c p, f (set_domainCache c p) = f p) -> keeps f (onDomainCache m).
Proof.
  intros H p. unfold onDomainCache.
  destruct (m (domainCache p)) as [c r]. apply H.
Qed.

Lemma keeps_onClientModule {A X} (f : Process -> X)
    (m : gmap string string -> SE ClientModule A) :
  (forall c p, f (set_clientModule c p) = f p) -> keeps f (onClientModule m).
Proof.
  intros H p. unfold onClientModule.
  destruct (m (env p) (clientModule p)) as [c r]. apply H.
Qed.

Lemma keeps_argsDomain {S X} (f : S -> X) (args : Args) :
  keeps f (argsDomain args).
Proof. by destruct args. Qed.

(** Takes a goal [keeps f m] apart along the shape of [m]. *)
Ltac keeps_step :=
  match goal with
  | |- keeps _ (bind _ _) => apply keeps_bind; [|intros ?]
  | |- keeps _ (ret _) => apply keeps_ret
  | |- keeps _ (throw _) => apply keeps_throw
  | |- keeps _ get => apply keeps_get
  | |- keeps _ (settle _) => apply keeps_settle
  | |- keeps _ (argsDomain _) => apply keeps_argsDomain
  | |- keeps _ (modify _) => apply keeps_modify; intros ?; reflexivity
  | |- keeps _ (onDomainCache _) =>
      apply keeps_onDomainCache; intros ? ?; reflexivity
  | |- keeps _ (onClientModule _) =>
      apply keeps_onClientModule; intros ? ?; reflexivity
  | |- keeps _ (tryCatch _ _) => apply keeps_tryCatch; [|intros ?]
  | |- keeps _ (if ?b then _ else _) => destruct b
  | |- keeps _ (match ?x with _ => _ end) => destruct x
  end.

Section ServerKeeps.

Variable importDomain : DomainName -> Completion DomainHandler.
Variable newURL : string -> string -> Completion string.

(** No protocol handler writes [process.env]. *)
Lemma callTool_env (request_name : string) (args : Args) :
  keeps env (callTool importDomain request_name args).
Proof. unfold callTool, callToolBody. repeat keeps_step. Qed.

Lemma getToolsForState_env : keeps env (getToolsForState importDomain).
Proof. unfold getToolsForState. repeat keeps_step. Qed.

(** Listing the tools does not navigate. *)
Lemma getToolsForState_currentDomain :
  keeps currentDomain (getToolsForState importDomain).
Proof. unfold getToolsForState. repeat keeps_step. Qed.

Lemma serve_protocol_env (r : Request) (p : Process) :
  isProtocolRequest r = true -> env (serve importDomain newURL r p) = env p.
Proof.
  destruct r; [intros _|intros _|discriminate]; simpl.
  - apply getToolsForState_env.
  - apply callTool_env.
Qed.

Lemma serve_all_protocol_env (rs : list Request) (p : Process) :
  forallb isProtocolRequest rs = true ->
  env (foldl (fun q r => serve importDomain newURL r q) p rs) = env p.
Proof.
  revert p. induction rs as [|r rs IH]; intros p H; simpl; [done|].
  simpl in H. apply andb_true_iff in H as [Hr Hrs].
  rewrite IH by done. by apply serve_protocol_env.
Qed.

End ServerKeeps.

(** ** The HTTP listener and the gateway credentials *)

Lemma set_env_same (p : Process) : set_env (env p) p = p.
Proof. by destruct p. Qed.

(** For a name that is already in lower case, as the two the server asks
    for are, the second lookup of [getHeader] is the first one again. *)
Lemma getHeader_lower_case (hs : gmap string HeaderValue) (name : string) :
  Js.toLowerCase name = name ->
  getHeader hs name =
    match hs !! name with
    | Some (Multiple l) => head l
    | Some (Single s) => Some s
    | None => None
    end.
Proof.
  intros H. unfold getHeader. rewrite H.
  by destruct (headerTruthy (hs !! name)).
Qed.

Lemma getHeader_absent (hs : gmap string HeaderValue) :
  hs !! "x-syncro-api-key" = None -> getHeader hs "x-syncro-api-key" = None.
Proof. intros H. rewrite getHeader_lower_case by reflexivity. by rewrite H. Qed.

Lemma applyGatewayCredentials_missing (req : IncomingMessage)
    (e : gmap string string) :
  Js.truthy (getHeader (headers req) "x-syncro-api-key") = false ->
  applyGatewayCredentials req e = (e, false).
Proof.
  intros H. unfold applyGatewayCredentials.
  by destruct (getHeader (headers req) "x-syncro-api-key") as [[|c k]|].
Qed.

Lemma applyGatewayCredentials_present (req : IncomingMessage)
    (e : gmap string string) (a : string) :
  getHeader (headers req) "x-syncro-api-key" = Some a ->
  Js.truthy (Some a) = true ->
  applyGatewayCredentials req e = (gatewayEnv req a e, true).
Proof.
  intros Ha Ht. unfold applyGatewayCredentials, gatewayEnv. rewrite Ha.
  destruct a as [|c k]; [discriminate|].
  by destruct (getHeader (headers req) "x-syncro-subdomain") as [[|c' s]|].
Qed.

Lemma getCredentials_gatewayEnv (req : IncomingMessage)
    (e : gmap string string) (a : string) :
  Js.truthy (Some a) = true ->
  getCredentials (gatewayEnv req a e) =
    Some {| apiKey := a;
            subdomain :=
              if Js.truthy (getHeader (headers req) "x-syncro-subdomain")
              then getHeader (headers req) "x-syncro-subdomain"
              else e !! "SYNCRO_SUBDOMAIN" |}.
Proof.
  intros Ht. unfold gatewayEnv, getCredentials.
  destruct (getHeader (headers req) "x-syncro-subdomain") as [[|c' s]|];
    simpl.
  all: rewrite ?(lookup_insert_ne _ "SYNCRO_SUBDOMAIN" "SYNCRO_API_KEY") by done.
  all: rewrite ?lookup_insert_eq; rewrite Ht; simpl.
  all: by rewrite ?(lookup_insert_ne _ "SYNCRO_API_KEY" "SYNCRO_SUBDOMAIN")
         by done.
Qed.

(** A gateway request that carries an API key is passed on, with the
    environment rewritten. *)
Lemma gateway_credentials_stored newURL (now : string)
    (req : IncomingMessage) (p : Process) (a : string) :
  urlPathname newURL req = Return "/mcp" ->
  getHeader (headers req) "x-syncro-api-key" = Some a ->
  Js.truthy (Some a) = true ->
  exists p',
    requestListener newURL true now req p = (p', HandleRequest)
    /\ env p' = gatewayEnv req a (env p).
Proof.
  intros Hpath Ha Ht. unfold requestListener. rewrite Hpath. simpl.
  rewrite (applyGatewayCredentials_present req (env p) a Ha Ht).
  by eexists.
Qed.

(** The routing of the listener for a request whose URL parses. *)
Lemma requestListener_routes newURL (now : string) (req : IncomingMessage)
    (p : Process) (pathname : string) :
  urlPathname newURL req = Return pathname ->
  (pathname = "/mcp" ->
   Js.truthy (getHeader (headers req) "x-syncro-api-key") = false ->
   requestListener newURL true now req p =
     (p, Respond 401
           [("error", JString "Missing credentials");
            ("message",
             JString "Gateway mode requires X-Syncro-API-Key header");
            ("required", JArray ["X-Syncro-API-Key"]);
            ("optional", JArray ["X-Syncro-Subdomain"])]))
  /\ (pathname = "/health" ->
      forall gateway : bool,
        requestListener newURL gateway now req p =
          (p, Respond 200
                [("status", JString "ok");
                 ("transport", JString "http");
                 ("authMode",
                  JString (if gateway then "gateway" else "env"));
                 ("timestamp", JString now)]))
  /\ (pathname <> "/health" -> pathname <> "/mcp" ->
      forall gateway : bool,
        requestListener newURL gateway now req p =
          (p, Respond 404
                [("error", JString "Not found");
                 ("endpoints", JArray ["/mcp"; "/health"])])).
Proof.
  intros Hurl. unfold requestListener. rewrite Hurl. split_and!.
  - intros -> H. simpl.
    rewrite (applyGatewayCredentials_missing _ _ H).
    by rewrite set_env_same.
  - by intros ->.
  - intros Hh Hm gateway.
    apply String.eqb_neq in Hh, Hm. by rewrite Hh, Hm.
Qed.

(** C4. The listener parses the request target before it routes, and
    nothing catches what the parser throws: a request whose target does
    not parse against its [Host] gets no response at all, neither the 401,
    nor the 200 of [/health], nor the 404 the listener keeps "for
    everything else"; the exception leaves the listener with the state as
    it was. *)
Theorem http_listener_unparsable_url_is_uncaught newURL (gateway : bool)
    (now : string) (req : IncomingMessage) (p : Process) (e : Js.thrown) :
  urlPathname newURL req = Throw e ->
  requestListener newURL gateway now req p = (p, Uncaught e).
Proof. intros H. unfold requestListener. by rewrite H. Qed.

Lemma http_listener_unparsable_url_is_uncaught_witness :
  requestListener sampleNewURL true "2025-01-01T00:00:00.000Z"
    {| url := Some "//"; headers := {[ "host" := Single "localhost" ]} |}
    (startProcess sampleEnv)
  = (startProcess sampleEnv, Uncaught (Js.Error "Invalid URL")).
Proof.
  exact (http_listener_unparsable_url_is_uncaught sampleNewURL true
           "2025-01-01T00:00:00.000Z"
           {| url := Some "//"; headers := {[ "host" := Single "localhost" ]} |}
           (startProcess sampleEnv) (Js.Error "Invalid URL") eq_refl).
Defined.

(** C3, as stated, fails: a process configured with its own key serves one
    gateway request that carries another key; a credential resolution made
    after the request has completed gives the request's key, not the
    configured one. *)
Lemma gateway_credentials_not_restored :
  getCredentials
    (env (fst (requestListener sampleNewURL true "2025-01-01T00:00:00.000Z"
                 (mcpRequest {[ "x-syncro-api-key" := Single "tenant-a-key" ]})
                 (startProcess {[ "SYNCRO_API_KEY" := "process-key" ]}))))
  <> getCredentials
       (env (startProcess {[ "SYNCRO_API_KEY" := "process-key" ]})).
Proof. vm_compute. discriminate. Qed.

(** C3, amended. In gateway mode the credentials a request to [/mcp]
    carries are written into [process.env] and stay there: once the
    listener has passed the request on, and after any number of protocol
    requests served from then on, a credential resolution gives the
    request's API key, with the request's tenant qualifier when it carried
    one and the qualifier configured before otherwise. *)
Theorem gateway_credentials_persist importDomain newURL (now : string)
    (req : IncomingMessage) (p : Process) (a : string)
    (afterwards : list Request) :
  urlPathname newURL req = Return "/mcp" ->
  getHeader (headers req) "x-syncro-api-key" = Some a ->
  Js.truthy (Some a) = true ->
  forallb isProtocolRequest afterwards = true ->
  exists p',
    requestListener newURL true now req p = (p', HandleRequest)
    /\ getCredentials
         (env (foldl (fun q r => serve importDomain newURL r q) p'
                 afterwards))
       = Some {| apiKey := a;
                 subdomain :=
                   if Js.truthy (getHeader (headers req) "x-syncro-subdomain")
                   then getHeader (headers req) "x-syncro-subdomain"
                   else env p !! "SYNCRO_SUBDOMAIN" |}.
Proof.
  intros Hpath Ha Ht Hafter. unfold requestListener. rewrite Hpath. simpl.
  rewrite (applyGatewayCredentials_present req (env p) a Ha Ht).
  eexists. split; [reflexivity|].
  rewrite serve_all_protocol_env by done. simpl.
  by apply getCredentials_gatewayEnv.
Qed.

Lemma gateway_credentials_persist_witness :
  exists p',
    requestListener sampleNewURL true "2025-01-01T00:00:00.000Z"
      (mcpRequest {[ "x-syncro-api-key" := Single "tenant-a-key" ]})
      (startProcess {[ "SYNCRO_API_KEY" := "process-key" ]})
    = (p', HandleRequest)
    /\ getCredentials
         (env (foldl
                 (fun q r =>
                    serve (repositoryModules sampleApi) sampleNewURL r q)
                 p' [CallTool "syncro_status" None; ListTools]))
       = Some {| apiKey := "tenant-a-key"; subdomain := None |}.
Proof.
  exact (gateway_credentials_persist (repositoryModules sampleApi)
           sampleNewURL "2025-01-01T00:00:00.000Z"
           (mcpRequest {[ "x-syncro-api-key" := Single "tenant-a-key" ]})
           (startProcess {[ "SYNCRO_API_KEY" := "process-key" ]})
           "tenant-a-key" [CallTool "syncro_status" None; ListTools]
           eq_refl eq_refl eq_refl eq_refl).
Defined.

(** C10. In gateway mode, after a request to [/mcp] that carried an API key
    and a tenant qualifier, a request that carries an API key and no tenant
    qualifier is passed on with [process.env] holding its own API key and
    the earlier request's tenant qualifier: that is the credential tuple
    resolved while it is served. *)
Theorem gateway_tenant_carries_over importDomain newURL
    (now1 now2 : string) (req1 req2 : IncomingMessage) (p : Process)
    (a1 s1 a2 : string) (between : list Request) :
  urlPathname newURL req1 = Return "/mcp" ->
  urlPathname newURL req2 = Return "/mcp" ->
  getHeader (headers req1) "x-syncro-api-key" = Some a1 ->
  Js.truthy (Some a1) = true ->
  getHeader (headers req1) "x-syncro-subdomain" = Some s1 ->
  Js.truthy (Some s1) = true ->
  getHeader (headers req2) "x-syncro-api-key" = Some a2 ->
  Js.truthy (Some a2) = true ->
  Js.truthy (getHeader (headers req2) "x-syncro-subdomain") = false ->
  forallb isProtocolRequest between = true ->
  exists p1 p2,
    requestListener newURL true now1 req1 p = (p1, HandleRequest)
    /\ requestListener newURL true now2 req2
         (foldl (fun q r => serve importDomain newURL r q) p1 between)
       = (p2, HandleRequest)
    /\ getCredentials (env p2) = Some {| apiKey := a2; subdomain := Some s1 |}.
Proof.
  intros Hp1 Hp2 Ha1 Ht1 Hs1 Hts1 Ha2 Ht2 Hs2 Hbetween.
  destruct (gateway_credentials_stored newURL now1 req1 p a1 Hp1 Ha1 Ht1)
    as (p1 & E1 & Henv1).
  exists p1.
  destruct (gateway_credentials_stored newURL now2 req2
              (foldl (fun q r => serve importDomain newURL r q) p1 between)
              a2 Hp2 Ha2 Ht2) as (p2 & E2 & Henv2).
  exists p2. split; [exact E1|]. split; [exact E2|].
  rewrite Henv2, getCredentials_gatewayEnv by done. rewrite Hs2.
  rewrite serve_all_protocol_env by done. rewrite Henv1.
  unfold gatewayEnv. rewrite Hs1. destruct s1 as [|c s]; [discriminate|].
  by rewrite lookup_insert_eq.
Qed.

(** ** Dispatch of domain tools *)

Lemma toolExists_false (request_name : string) (tools : list Tool) :
  request_name ∉ List.map name tools ->
  existsb (fun t => String.eqb (name t) request_name) tools = false.
Proof.
  induction tools as [|t tools IH]; simpl; [done|].
  intros H. apply not_elem_of_cons in H as [Hne Hrest].
  rewrite IH by done. rewrite orb_false_r. apply String.eqb_neq. congruence.
Qed.

Lemma not_reserved (request_name : string) :
  request_name ∉ reservedNames ->
  String.eqb request_name "syncro_navigate" = false
  /\ String.eqb request_name "syncro_back" = false
  /\ String.eqb request_name "syncro_status" = false.
Proof.
  unfold reservedNames. intros H.
  repeat (apply not_elem_of_cons in H as [? H]).
  by rewrite !String.eqb_neq.
Qed.

Section Dispatch.

Variable importDomain : DomainName -> Completion DomainHandler.

(** The last part of the [try] block, which every name other than the
    three reserved ones reaches. *)
Lemma callToolBody_domain_tool (request_name : string) (args : Args)
    (p : Process) :
  request_name ∉ reservedNames ->
  callToolBody importDomain request_name args p =
    match currentDomain p with
    | Some d =>
        match getDomainHandler importDomain d (domainCache p) with
        | (cache, Return h) =>
            if existsb (fun t => String.eqb (name t) request_name)
                 (getTools h)
            then
              onClientModule (handleCall h request_name args)
                (record_event (HandleCall d request_name args)
                   (set_domainCache cache p))
            else
              (set_domainCache cache p,
               Return (errorResult
                         (unknownToolText request_name (Some d))))
        | (cache, Throw e) => (set_domainCache cache p, Throw e)
        end
    | None => (p, Return (errorResult (unknownToolText request_name None)))
    end.
Proof.
  intros H. apply not_reserved in H as (Hn & Hb & Hs).
  unfold callToolBody. rewrite Hn, Hb, Hs.
  unfold bind, get, ret, onDomainCache. cbn -[getDomainHandler].
  destruct (currentDomain p) as [d|] eqn:Hd; [|by rewrite Hd].
  destruct (getDomainHandler importDomain d (domainCache p))
    as [cache [h|e]]; [|done].
  destruct (existsb _ (getTools h)); [done|].
  cbn. by rewrite Hd.
Qed.

(** The [catch] clause writes no state. *)
Lemma callTool_state (request_name : string) (args : Args) (p : Process) :
  fst (callTool importDomain request_name args p)
  = fst (callToolBody importDomain request_name args p).
Proof.
  unfold callTool, tryCatch.
  destruct (callToolBody importDomain request_name args p) as [p' [r|e]];
    [done|].
  unfold bind, settle. by destruct (messageOf e).
Qed.

(** A handler that throws, called for one of its tools: the event, the
    state the handler left, and what the [catch] clause makes of the
    failure. *)
Lemma callTool_handler_throws (request_name : string) (args : Args)
    (p : Process) (d : DomainName) (cache : gmap DomainName DomainHandler)
    (h : DomainHandler) (m : ClientModule) (e : Js.thrown) :
  request_name ∉ reservedNames ->
  currentDomain p = Some d ->
  getDomainHandler importDomain d (domainCache p) = (cache, Return h) ->
  existsb (fun t => String.eqb (name t) request_name) (getTools h) = true ->
  handleCall h request_name args (env p) (clientModule p) = (m, Throw e) ->
  callTool importDomain request_name args p =
    (set_clientModule m
       (record_event (HandleCall d request_name args)
          (set_domainCache cache p)),
     dispatchAnswer (Throw e)).
Proof.
  intros Hres Hd Hh Hex Hthrow. unfold callTool, tryCatch.
  rewrite (callToolBody_domain_tool _ _ _ Hres), Hd, Hh, Hex.
  unfold onClientModule. simpl. rewrite Hthrow. by destruct e.
Qed.

End Dispatch.

(** C6. A name that is none of the three reserved ones and is not among the
    names of the tools currently listed is answered with an error result,
    whatever domain the name may belong to; nothing is handed to a domain
    handler and the navigation state stays; the text names the selected
    domain and [syncro_back] inside a domain, and asks for
    [syncro_navigate] first at the root. *)
Theorem unknown_tool_is_rejected importDomain (p : Process)
    (request_name : string) (args : Args) (tools : list Tool) :
  snd (getToolsForState importDomain p) = Return tools ->
  request_name ∉ reservedNames ->
  request_name ∉ List.map name tools ->
  exists p',
    callTool importDomain request_name args p =
      (p', Return
             {| content :=
                  [Text match currentDomain p with
                        | Some d =>
                            "Unknown tool: " +:+ request_name
                            +:+ ". You are currently in the "
                            +:+ domainString d
                            +:+ " domain. Use syncro_back to return to the main menu."
                        | None =>
                            "Unknown tool: " +:+ request_name
                            +:+ ". Use syncro_navigate to select a domain first."
                        end];
                isError := true |})
    /\ delegated p' = delegated p
    /\ clientModule p' = clientModule p
    /\ currentDomain p' = currentDomain p.
Proof.
  intros Hlist Hres Hvis. unfold callTool, tryCatch.
  rewrite (callToolBody_domain_tool _ _ _ _ Hres).
  unfold getToolsForState, bind, get, ret, onDomainCache in Hlist.
  cbn -[getDomainHandler] in Hlist.
  destruct (currentDomain p) as [d|] eqn:Hd; [|by eexists].
  destruct (getDomainHandler importDomain d (domainCache p))
    as [cache [h|e]]; [|discriminate].
  injection Hlist as <-.
  simpl in Hvis. apply not_elem_of_cons in Hvis as [_ Hvis].
  apply not_elem_of_cons in Hvis as [_ Hvis].
  rewrite (toolExists_false _ _ Hvis). by eexists.
Qed.


Lemma unknown_tool_is_rejected_witness :
  exists p',
    callTool (repositoryModules sampleApi) "syncro_customers_list" None
      sampleInTickets
    = (p', Return
             (errorResult
                "Unknown tool: syncro_customers_list. You are currently in the tickets domain. Use syncro_back to return to the main menu."))
    /\ delegated p' = []
    /\ clientModule p' = freshClientModule
    /\ currentDomain p' = Some tickets.
Proof.
  refine (unknown_tool_is_rejected (repositoryModules sampleApi)
            sampleInTickets "syncro_customers_list" None
            (backTool :: statusTool :: toolsOf tickets) eq_refl _ _).
  - apply (bool_decide_unpack _). vm_compute. exact I.
  - apply (bool_decide_unpack _). vm_compute. exact I.
Defined.


(** The missing-credentials error of [getClient] is caught. *)
Example dispatch_without_credentials :
  snd (callTool (repositoryModules sampleApi) "syncro_tickets_list"
         (Some ∅) sampleInTicketsNoKey)
  = Return (errorResult
              "Error: No API credentials provided. Please configure SYNCRO_API_KEY environment variable.").
Proof. reflexivity. Qed.

(** A call that goes through: the reply of the remote side is the text. *)
Example dispatch_tickets_list :
  snd (callTool (repositoryModules sampleApi) "syncro_tickets_list"
         (Some ∅) sampleInTickets)
  = Return (textResult "{}").
Proof. reflexivity. Qed.

(** A call without arguments fails on the first property the case reads. *)
Example dispatch_tickets_get_no_arguments :
  snd (callTool (repositoryModules sampleApi) "syncro_tickets_get" None
         sampleInTickets)
  = Return (errorResult
              "Error: Cannot read properties of undefined (reading 'ticket_id')").
Proof. reflexivity. Qed.

Lemma gateway_tenant_carries_over_witness :
  exists p1 p2,
    requestListener sampleNewURL true "2025-01-01T00:00:00.000Z"
      (mcpRequest {[ "x-syncro-api-key" := Single "tenant-a-key";
                     "x-syncro-subdomain" := Single "tenant-a" ]})
      (startProcess ∅)
    = (p1, HandleRequest)
    /\ requestListener sampleNewURL true "2025-01-01T00:00:01.000Z"
         (mcpRequest {[ "x-syncro-api-key" := Single "tenant-b-key" ]})
         (foldl
            (fun q r => serve (repositoryModules sampleApi) sampleNewURL r q)
            p1 [CallTool "syncro_navigate" (navigateTo customers)])
       = (p2, HandleRequest)
    /\ getCredentials (env p2)
       = Some {| apiKey := "tenant-b-key"; subdomain := Some "tenant-a" |}.
Proof.
  exact (gateway_tenant_carries_over (repositoryModules sampleApi)
           sampleNewURL
           "2025-01-01T00:00:00.000Z" "2025-01-01T00:00:01.000Z"
           (mcpRequest {[ "x-syncro-api-key" := Single "tenant-a-key";
                          "x-syncro-subdomain" := Single "tenant-a" ]})
           (mcpRequest {[ "x-syncro-api-key" := Single "tenant-b-key" ]})
           (startProcess ∅) "tenant-a-key" "tenant-a" "tenant-b-key"
           [CallTool "syncro_navigate" (navigateTo customers)]
           eq_refl eq_refl eq_refl eq_refl eq_refl eq_refl eq_refl eq_refl
           eq_refl eq_refl).
Defined.

(** ** Invariants of a running process *)

Section Maintains.

Context {S : Type} (I : S -> Prop).

Lemma maintains_ret {A} (a : A) : maintains I (ret a).
Proof. by intros s. Qed.

Lemma maintains_throw {A} (e : Js.thrown) : maintains I (@throw S A e).
Proof. by intros s. Qed.

Lemma maintains_get : maintains I get.
Proof. by intros s. Qed.

Lemma maintains_settle {A} (c : Completion A) : maintains I (settle c).
Proof. by intros s. Qed.

Lemma maintains_modify (g : S -> S) :
  (forall s, I s -> I (g s)) -> maintains I (modify g).
Proof. intros H s. apply H. Qed.

Lemma maintains_bind {A B} (m : SE S A) (k : A -> SE S B) :
  maintains I m -> (forall a, maintains I (k a)) -> maintains I (bind m k).
Proof.
  intros Hm Hk s Hs. unfold bind. specialize (Hm s Hs).
  destruct (m s) as [s' [a|e]]; simpl in *; [|done].
  by apply Hk.
Qed.

Lemma maintains_tryCatch {A} (body : SE S A)
    (handler : Js.thrown -> SE S A) :
  maintains I body -> (forall e, maintains I (handler e)) ->
  maintains I (tryCatch body handler).
Proof.
  intros Hb Hh s Hs. unfold tryCatch. specialize (Hb s Hs).
  destruct (body s) as [s' [a|e]]; simpl in *; [done|].
  by apply Hh.
Qed.

End Maintains.

Section CacheInvariant.

Variable importDomain : DomainName -> Completion DomainHandler.
Variable newURL : string -> string -> Completion string.

Lemma maintains_getDomainHandler (d : DomainName) :
  maintains (cacheOk importDomain)
    (onDomainCache (getDomainHandler importDomain d)).
Proof.
  intros p Hp. unfold onDomainCache.
  pose proof (cacheLoadedFrom_getDomainHandler importDomain d _ Hp) as H.
  destruct (getDomainHandler importDomain d (domainCache p)) as [c r].
  exact H.
Qed.

Lemma maintains_onClientModule {A}
    (m : gmap string string -> SE ClientModule A) :
  maintains (cacheOk importDomain) (onClientModule m).
Proof.
  intros p Hp. unfold onClientModule.
  destruct (m (env p) (clientModule p)) as [c r]. exact Hp.
Qed.

Lemma maintains_argsDomain (args : Args) :
  maintains (cacheOk importDomain) (argsDomain args).
Proof. destruct args; intros p Hp; exact Hp. Qed.

(** Takes a goal [maintains (cacheOk _) m] apart along the shape of [m]. *)
Ltac maintains_step :=
  match goal with
  | |- maintains _ (bind _ _) => apply maintains_bind; [|intros ?]
  | |- maintains _ (ret _) => apply maintains_ret
  | |- maintains _ (throw _) => apply maintains_throw
  | |- maintains _ get => apply maintains_get
  | |- maintains _ (settle _) => apply maintains_settle
  | |- maintains _ (argsDomain _) => apply maintains_argsDomain
  | |- maintains _ (modify _) =>
      apply maintains_modify; intros ? H; exact H
  | |- maintains _ (onDomainCache _) => apply maintains_getDomainHandler
  | |- maintains _ (onClientModule _) => apply maintains_onClientModule
  | |- maintains _ (tryCatch _ _) => apply maintains_tryCatch; [|intros ?]
  | |- maintains _ (if ?b then _ else _) => destruct b
  | |- maintains _ (match ?x with _ => _ end) => destruct x
  end.

Lemma callTool_cacheLoadedFrom (request_name : string) (args : Args) :
  maintains (cacheOk importDomain) (callTool importDomain request_name args).
Proof. unfold callTool, callToolBody. repeat maintains_step. Qed.

Lemma getToolsForState_cacheLoadedFrom :
  maintains (cacheOk importDomain) (getToolsForState importDomain).
Proof. unfold getToolsForState. repeat maintains_step. Qed.

Lemma requestListener_keeps_modules (gateway : bool) (now : string)
    (req : IncomingMessage) (p : Process) :
  domainCache (fst (requestListener newURL gateway now req p))
  = domainCache p
  /\ clientModule (fst (requestListener newURL gateway now req p))
     = clientModule p
  /\ currentDomain (fst (requestListener newURL gateway now req p))
     = currentDomain p.
Proof.
  unfold requestListener.
  destruct (urlPathname newURL req) as [pathname|e]; [|done].
  destruct (String.eqb pathname "/health"); [done|].
  destruct (String.eqb pathname "/mcp"); [|done].
  destruct gateway; [|done].
  by destruct (applyGatewayCredentials req (env p)) as [e []].
Qed.

(** [domainCache] holds what [getDomainHandler] put there, whatever the
    requests served. *)
Lemma serve_cacheLoadedFrom (r : Request) (p : Process) :
  cacheOk importDomain p ->
  cacheOk importDomain (serve importDomain newURL r p).
Proof.
  intros Hp. destruct r as [|n a|gw now req]; simpl.
  - by apply getToolsForState_cacheLoadedFrom.
  - by apply callTool_cacheLoadedFrom.
  - unfold cacheOk.
    by rewrite (proj1 (requestListener_keeps_modules gw now req p)).
Qed.

End CacheInvariant.

Section RepositoryInvariant.

Variable api :
  SyncroClient -> string -> gmap string Js.value -> Completion string.
Variable newURL : string -> string -> Completion string.

Lemma remoteCase_state (toolName firstRead : string) (client : SyncroClient)
    (args : Args) (m : ClientModule) :
  fst (remoteCase api toolName firstRead client args m) = m.
Proof.
  unfold remoteCase, readArgs, bind, settle.
  destruct args as [bag|]; [|done]. simpl.
  by destruct (api client toolName bag).
Qed.

Lemma emailCase_state (client : SyncroClient) (args : Args)
    (m : ClientModule) :
  fst (emailCase api client args m) = m.
Proof.
  unfold emailCase, readArgs, bind, settle.
  destruct args as [bag|]; [|done]. simpl.
  destruct (api client "syncro_invoices_email" bag); [|done].
  by destruct (templateText (default Js.Undefined (bag !! "invoice_id"))).
Qed.

Lemma switch_cases_state (client : SyncroClient) cases (toolName : string)
    (args : Args) (default : SE ClientModule CallToolResult)
    (m : ClientModule) :
  casesKeepState cases ->
  fst (default m) = m ->
  fst (Js.switch toolName
         (List.map (fun c => (fst c, snd c client args)) cases)
         default m) = m.
Proof.
  intros Hcases Hd. induction Hcases as [|c rest Hc _ IH]; simpl; [done|].
  destruct (String.eqb toolName _); [apply Hc|exact IH].
Qed.

(** A handler of the repository touches the client module through
    [getClient] only. *)
Lemma handleCallOf_state cases (unknown toolName : string) (args : Args)
    (e : gmap string string) (m : ClientModule) :
  casesKeepState cases ->
  fst (handleCallOf cases unknown toolName args e m) = fst (getClient e m).
Proof.
  intros Hcases. unfold handleCallOf, bind.
  destruct (getClient e m) as [m' [client|err]]; simpl; [|done].
  by rewrite switch_cases_state.
Qed.

Lemma repositoryModules_handleCall_state (d : DomainName) (h : DomainHandler)
    (toolName : string) (args : Args) (e : gmap string string)
    (m : ClientModule) :
  repositoryModules api d = Return h ->
  fst (handleCall h toolName args e m) = fst (getClient e m).
Proof.
  destruct d; intros [= <-]; simpl; apply handleCallOf_state;
    repeat constructor; simpl; intros;
    first [apply remoteCase_state | apply emailCase_state].
Qed.

Lemma repositoryModules_clientModuleOk (d : DomainName) (h : DomainHandler)
    (toolName : string) (args : Args) (e : gmap string string)
    (m : ClientModule) :
  repositoryModules api d = Return h ->
  clientModuleOk m ->
  clientModuleOk (fst (handleCall h toolName args e m)).
Proof.
  intros Hh Hok. rewrite (repositoryModules_handleCall_state d h _ _ _ _ Hh).
  by apply clientModuleOk_getClient.
Qed.

Lemma callTool_reserved_clientModule importDomain (request_name : string)
    (args : Args) :
  request_name ∈ reservedNames ->
  keeps clientModule (callTool importDomain request_name args).
Proof.
  unfold reservedNames. intros H.
  repeat (apply elem_of_cons in H as [->|H]);
    [| | |by apply elem_of_nil in H].
  all: unfold callTool, callToolBody; simpl; repeat keeps_step.
Qed.

Lemma callTool_processOk (request_name : string) (args : Args)
    (p : Process) :
  processOk api p ->
  processOk api (fst (callTool (repositoryModules api) request_name args p)).
Proof.
  intros [Hcache Hclient]. split.
  { by apply (callTool_cacheLoadedFrom (repositoryModules api)). }
  destruct (decide (request_name ∈ reservedNames)) as [Hres|Hres].
  { by rewrite (callTool_reserved_clientModule _ _ _ Hres). }
  rewrite callTool_state, (callToolBody_domain_tool _ _ _ _ Hres).
  destruct (currentDomain p) as [d|]; [|done].
  pose proof (cacheLoadedFrom_getDomainHandler _ d _ Hcache) as Hnext.
  destruct (getDomainHandler (repositoryModules api) d (domainCache p))
    as [cache [h|e]] eqn:Hh; [|done].
  destruct (existsb _ (getTools h)); [|done].
  apply getDomainHandler_memo in Hh. apply Hnext in Hh.
  unfold onClientModule. simpl.
  pose proof (repositoryModules_clientModuleOk d h request_name args
                (env p) (clientModule p) Hh Hclient) as Hok.
  by destruct (handleCall h request_name args (env p) (clientModule p))
    as [m [r|e]].
Qed.

Lemma serve_processOk (r : Request) (p : Process) :
  processOk api p -> processOk api (serve (repositoryModules api) newURL r p).
Proof.
  intros Hp. destruct r as [|n a|gw now req]; simpl.
  - destruct Hp as [Hcache Hclient]. split.
    + by apply (getToolsForState_cacheLoadedFrom (repositoryModules api)).
    + enough (keeps clientModule (getToolsForState (repositoryModules api)))
        as -> by done.
      unfold getToolsForState. repeat keeps_step.
  - by apply callTool_processOk.
  - destruct Hp as [Hcache Hclient].
    destruct (requestListener_keeps_modules newURL gw now req p)
      as (Hc & Hm & _).
    unfold processOk. by rewrite Hc, Hm.
Qed.

(** Whatever requests a process started with the repository's modules has
    served, its handler cache and its client module satisfy the
    invariants the properties above assume. *)
Lemma processOk_reachable (e : gmap string string) (rs : list Request) :
  processOk api
    (foldl (fun q r => serve (repositoryModules api) newURL r q)
       (startProcess e) rs).
Proof.
  assert (processOk api (startProcess e)) as H0.
  { split; [apply cacheLoadedFrom_empty|exact I]. }
  revert H0. generalize (startProcess e).
  induction rs as [|r rs IH]; intros p Hp; simpl; [done|].
  apply IH. by apply serve_processOk.
Qed.

End RepositoryInvariant.

(** ** A session from start to end *)

(** The tools listed at the root, after navigating to tickets, and after
    going back. *)
Example session_tool_lists :
  let modules := repositoryModules sampleApi in
  let p0 := startProcess sampleEnv in
  let p1 := fst (callTool modules "syncro_navigate" (navigateTo tickets) p0) in
  let lookup := Some {[ "ticket_id" := Js.Other "789" ]} in
  let p2 := fst (callTool modules "syncro_tickets_get" lookup p1) in
  let p3 := fst (callTool modules "syncro_back" None p2) in
  let listed p :=
    match snd (getToolsForState modules p) with
    | Return tools => List.map name tools
    | Throw _ => []
    end in
  listed p0 = ["syncro_navigate"; "syncro_status"]
  /\ listed p1 = ["syncro_back"; "syncro_status"; "syncro_tickets_list";
                  "syncro_tickets_get"; "syncro_tickets_create";
                  "syncro_tickets_update"; "syncro_tickets_add_comment"]
  /\ snd (callTool modules "syncro_tickets_get" lookup p1)
     = Return (errorResult "Error: Ticket not found")
  /\ listed p3 = ["syncro_navigate"; "syncro_status"].
Proof. repeat split. Qed.

(** Without credentials the first navigation is refused and the process
    stays at the root. *)
Example session_without_credentials :
  callTool (repositoryModules sampleApi) "syncro_navigate"
    (navigateTo customers) (startProcess ∅)
  = (startProcess ∅, Return (errorResult noCredentialsText)).
Proof. reflexivity. Qed.

(** * Further properties of the code *)

(** ** Domain names *)

(** X1. The array [isDomainName] searches (utils/types.ts) and the array
    [getAvailableDomains] returns (domains/index.ts) name the same domains:
    a value passes the guard exactly when it is the string of a domain
    [getAvailableDomains] lists; that list has no repetition and misses no
    [DomainName]. *)
Theorem domain_lists_agree :
  (forall v : Js.value,
     isDomainName v = true <->
     exists d, d ∈ getAvailableDomains /\ v = Js.Str (domainString d))
  /\ NoDup getAvailableDomains
  /\ forall d : DomainName, d ∈ getAvailableDomains.
Proof.
  assert (forall d : DomainName, d ∈ getAvailableDomains) as Hall.
  { intros []; unfold getAvailableDomains; set_solver. }
  split_and!; [|by apply (bool_decide_unpack _)|exact Hall].
  intros v. rewrite isDomainName_asDomainName. split.
  - intros [d Hd]. exists d. split; [apply Hall|by apply asDomainName_Some].
  - intros (d & _ & ->). rewrite asDomainName_domainString. by eexists.
Qed.

(** ** The handler registry *)

(** X2. Once [getDomainHandler] has resolved a domain, every later call for
    that domain returns the same handler and leaves the cache as it is,
    whatever the module system would answer by then. *)
Theorem getDomainHandler_is_memoized
    (importDomain importLater : DomainName -> Completion DomainHandler)
    (d : DomainName) (h : DomainHandler)
    (cache cache' : gmap DomainName DomainHandler) :
  getDomainHandler importDomain d cache = (cache', Return h) ->
  getDomainHandler importLater d cache' = (cache', Return h).
Proof.
  intros H. apply getDomainHandler_cached.
  by apply (getDomainHandler_memo importDomain d h cache).
Qed.

Lemma getDomainHandler_is_memoized_witness :
  getDomainHandler brokenModules tickets
    {[ tickets := ticketsHandler sampleApi ]}
  = ({[ tickets := ticketsHandler sampleApi ]},
     Return (ticketsHandler sampleApi)).
Proof.
  exact (getDomainHandler_is_memoized (repositoryModules sampleApi)
           brokenModules tickets (ticketsHandler sampleApi) ∅
           {[ tickets := ticketsHandler sampleApi ]} eq_refl).
Defined.

(** X3. A failed import is not cached: the cache is left as it was, and a
    later call for the same domain asks the module system again and
    resolves when the import then succeeds. *)
Theorem getDomainHandler_retries_after_failure
    (importDomain importLater : DomainName -> Completion DomainHandler)
    (d : DomainName) (e : Js.thrown) (h : DomainHandler)
    (cache cache' : gmap DomainName DomainHandler) :
  getDomainHandler importDomain d cache = (cache', Throw e) ->
  importLater d = Return h ->
  cache' = cache
  /\ getDomainHandler importLater d cache' = (<[d := h]> cache, Return h).
Proof.
  intros H Hlater. apply getDomainHandler_throw in H as (-> & Hc & _).
  split; [done|]. unfold getDomainHandler. by rewrite Hc, Hlater.
Qed.

Lemma getDomainHandler_retries_after_failure_witness :
  (∅ : gmap DomainName DomainHandler) = ∅
  /\ getDomainHandler (repositoryModules sampleApi) assets ∅
     = (<[assets := assetsHandler sampleApi]> ∅,
        Return (assetsHandler sampleApi)).
Proof.
  exact (getDomainHandler_retries_after_failure brokenModules
           (repositoryModules sampleApi) assets
           (Js.Error "Cannot find module") (assetsHandler sampleApi) ∅ ∅
           eq_refl eq_refl).
Defined.

(** X4. [getDomainHandler] only ever adds to the cache: an entry that is
    cached, for the requested domain or any other, is still cached, with
    the same handler, after the call. *)
Theorem getDomainHandler_keeps_entries
    (importDomain : DomainName -> Completion DomainHandler)
    (d d' : DomainName) (h' : DomainHandler)
    (cache : gmap DomainName DomainHandler) :
  cache !! d' = Some h' ->
  fst (getDomainHandler importDomain d cache) !! d' = Some h'.
Proof.
  intros H. unfold getDomainHandler.
  destruct (cache !! d) as [cached|] eqn:Hc; [done|].
  destruct (importDomain d) as [h|e]; [|done]. simpl.
  rewrite lookup_insert_ne; [done|]. intros ->. congruence.
Qed.

Lemma getDomainHandler_keeps_entries_witness :
  fst (getDomainHandler (repositoryModules sampleApi) customers
         {[ tickets := ticketsHandler sampleApi ]}) !! tickets
  = Some (ticketsHandler sampleApi).
Proof.
  exact (getDomainHandler_keeps_entries (repositoryModules sampleApi)
           customers tickets (ticketsHandler sampleApi)
           {[ tickets := ticketsHandler sampleApi ]} eq_refl).
Defined.

(** X5. After [clearDomainCache] nothing that was cached is used: the next
    [getDomainHandler] call answers what the module system answers now,
    and caches exactly that. *)
Theorem clearDomainCache_forces_import
    (importDomain : DomainName -> Completion DomainHandler)
    (d : DomainName) (cache : gmap DomainName DomainHandler) :
  getDomainHandler importDomain d (clearDomainCache cache) =
    match importDomain d with
    | Return h => ({[ d := h ]}, Return h)
    | Throw e => (∅, Throw e)
    end.
Proof.
  unfold getDomainHandler, clearDomainCache. rewrite lookup_empty.
  destruct (importDomain d) as [h|e]; [|done]. by rewrite insert_empty.
Qed.

(** ** The cached Syncro client *)

Lemma getClient_unconfigured (e : gmap string string) (m : ClientModule) :
  getCredentials e = None ->
  getClient e m = (m, Throw noCredentialsProvided).
Proof. intros H. unfold getClient. by rewrite H. Qed.

Lemma clientBound_getClient (e : gmap string string) (m : ClientModule) :
  clientBound m -> clientBound (fst (getClient e m)).
Proof.
  intros Hb. unfold getClient.
  destruct (getCredentials e) as [creds|]; [|done].
  destruct (_client m) as [k0|] eqn:Hk0.
  - destruct (_credentials m) as [c0|] eqn:Hc0.
    + destruct (credentialsChanged creds c0); simpl.
      * by intros k [= <-].
      * by rewrite Hk0.
    + rewrite Hk0. done.
  - rewrite Hk0. simpl. by intros k [= <-].
Qed.

Lemma clientBound_fresh : clientBound freshClientModule.
Proof. intros k. discriminate. Qed.

Lemma clientBound_clearClient (m : ClientModule) :
  clientBound (clearClient m).
Proof. intros k. discriminate. Qed.

(** X6. [clearClient] makes the next [getClient] construct a new object,
    also when the credentials have not changed: the object returned after
    the clearing is not the one returned before it. *)
Theorem clearClient_forces_new_client (m : ClientModule)
    (e : gmap string string) (creds : SyncroCredentials) :
  clientModuleOk m ->
  getCredentials e = Some creds ->
  exists m1 k1 m2 k2,
    getClient e m = (m1, Return k1)
    /\ getClient e (clearClient m1) = (m2, Return k2)
    /\ ref k2 <> ref k1
    /\ config k2 = creds.
Proof.
  intros Hok Hcreds.
  destruct (getClient_resolved e m creds Hok Hcreds)
    as (m1 & k1 & E1 & Hk1 & Hc1 & Hlt).
  exists m1, k1. unfold getClient at 2. rewrite Hcreds. simpl.
  eexists _, _. split; [exact E1|]. split; [reflexivity|]. simpl.
  split; [lia|done].
Qed.

Lemma clearClient_forces_new_client_witness :
  exists m1 k1 m2 k2,
    getClient sampleEnv freshClientModule = (m1, Return k1)
    /\ getClient sampleEnv (clearClient m1) = (m2, Return k2)
    /\ ref k2 <> ref k1
    /\ config k2 = {| apiKey := "key-one"; subdomain := None |}.
Proof.
  exact (clearClient_forces_new_client freshClientModule sampleEnv
           {| apiKey := "key-one"; subdomain := None |} I eq_refl).
Defined.

(** X7. A [getClient] call made while no API key is configured throws the
    "No API credentials provided" error and changes nothing: the cached
    client survives it, and the next call with the earlier credentials
    returns that same object. *)
Theorem getClient_failure_keeps_cache (m m1 : ClientModule)
    (e unconfigured : gmap string string) (k1 : SyncroClient) :
  getClient e m = (m1, Return k1) ->
  clientModuleOk m ->
  getCredentials unconfigured = None ->
  getClient unconfigured m1 = (m1, Throw noCredentialsProvided)
  /\ getClient e m1 = (m1, Return k1).
Proof.
  intros E1 Hok Hnone. split; [by apply getClient_unconfigured|].
  destruct (getCredentials e) as [creds|] eqn:Hcreds.
  - destruct (getClient_resolved e m creds Hok Hcreds)
      as (m1' & k1' & E1' & Hk1 & Hc1 & _).
    rewrite E1 in E1'. injection E1' as <- <-.
    rewrite (getClient_again e m1 k1 creds creds Hk1 Hc1 Hcreds).
    by rewrite (proj2 (credentialsChanged_false creds creds) eq_refl).
  - rewrite (getClient_unconfigured e m Hcreds) in E1. discriminate.
Qed.

Lemma getClient_failure_keeps_cache_witness :
  getClient ∅
    {| _client := Some {| ref := 0;
                          config := {| apiKey := "key-one";
                                       subdomain := None |} |};
       _credentials := Some {| apiKey := "key-one"; subdomain := None |};
       constructed := 1 |}
  = ({| _client := Some {| ref := 0;
                           config := {| apiKey := "key-one";
                                        subdomain := None |} |};
        _credentials := Some {| apiKey := "key-one"; subdomain := None |};
        constructed := 1 |},
     Throw noCredentialsProvided)
  /\ getClient sampleEnv
       {| _client := Some {| ref := 0;
                             config := {| apiKey := "key-one";
                                          subdomain := None |} |};
          _credentials := Some {| apiKey := "key-one"; subdomain := None |};
          constructed := 1 |}
     = ({| _client := Some {| ref := 0;
                              config := {| apiKey := "key-one";
                                           subdomain := None |} |};
           _credentials := Some {| apiKey := "key-one"; subdomain := None |};
           constructed := 1 |},
        Return {| ref := 0;
                  config := {| apiKey := "key-one"; subdomain := None |} |}).
Proof.
  exact (getClient_failure_keeps_cache freshClientModule _ sampleEnv ∅ _
           eq_refl I eq_refl).
Defined.

Lemma getClient_config (m m' : ClientModule)
    (e : gmap string string) (k : SyncroClient) :
  clientBound m ->
  clientModuleOk m ->
  getClient e m = (m', Return k) ->
  getCredentials e = Some (config k).
Proof.
  intros Hb Hok E.
  destruct (getCredentials e) as [creds|] eqn:Hcreds.
  - destruct (getClient_resolved e m creds Hok Hcreds)
      as (m1 & k1 & E1 & Hk1 & Hc1 & _).
    rewrite E in E1. injection E1 as <- <-.
    pose proof (clientBound_getClient e m Hb) as Hb'. rewrite E in Hb'.
    specialize (Hb' k Hk1). simpl in Hb'. congruence.
  - rewrite (getClient_unconfigured e m Hcreds) in E. discriminate.
Qed.

(** X8. [getClient] never hands out a client made for other credentials
    than the ones it has just resolved: whenever it returns a client, the
    configuration that client was constructed with is the current
    credential tuple. *)
Theorem getClient_returns_current_credentials (m m' : ClientModule)
    (e : gmap string string) (k : SyncroClient) :
  clientBound m ->
  clientModuleOk m ->
  getClient e m = (m', Return k) ->
  getCredentials e = Some (config k).
Proof. apply getClient_config. Qed.

Lemma getClient_returns_current_credentials_witness :
  getCredentials sampleEnvTenant
  = Some (config {| ref := 1;
                    config := {| apiKey := "key-one";
                                 subdomain := Some "acme" |} |}).
Proof.
  refine (getClient_returns_current_credentials
            (fst (getClient sampleEnv freshClientModule)) _ sampleEnvTenant
            {| ref := 1;
               config := {| apiKey := "key-one"; subdomain := Some "acme" |} |}
            _ _ eq_refl).
  - intros k. vm_compute. intros [= <-]. reflexivity.
  - vm_compute. split; [eexists; reflexivity|lia].
Defined.

(** X9. While the resolved credentials stay the same, any number of
    [getClient] calls return one and the same object, and at most one
    client is constructed for all of them. *)
Theorem getClient_constructs_once (m : ClientModule)
    (e : gmap string string) (creds : SyncroCredentials) (n : nat) :
  clientModuleOk m ->
  getCredentials e = Some creds ->
  exists k,
    getClients (replicate n e) m = replicate n k
    /\ ref k <= constructed m.
Proof.
  intros Hok Hcreds.
  destruct (getClient_resolved e m creds Hok Hcreds)
    as (m1 & k & E1 & Hk & Hc & Hlt).
  exists k. split.
  - destruct n as [|n]; [done|]. simpl. rewrite E1. f_equal.
    induction n as [|n IH]; [done|]. simpl.
    rewrite (getClient_again e m1 k creds creds Hk Hc Hcreds).
    rewrite (proj2 (credentialsChanged_false creds creds) eq_refl).
    by rewrite IH.
  - unfold getClient in E1. rewrite Hcreds in E1.
    unfold clientModuleOk in Hok.
    destruct (_client m) as [k0|] eqn:Hk0.
    + destruct Hok as [[c0 Hc0] Hlt0]. rewrite Hc0 in E1.
      destruct (credentialsChanged creds c0); simpl in E1.
      * injection E1 as <- <-. simpl. lia.
      * rewrite Hk0 in E1. injection E1 as <- <-. lia.
    + rewrite Hk0 in E1. injection E1 as <- <-. simpl. lia.
Qed.

Lemma getClient_constructs_once_witness :
  exists k,
    getClients (replicate 4 sampleEnv) freshClientModule = replicate 4 k
    /\ ref k <= constructed freshClientModule.
Proof.
  exact (getClient_constructs_once freshClientModule sampleEnv
           {| apiKey := "key-one"; subdomain := None |} 4 I eq_refl).
Defined.

(** ** The domain handlers *)

Lemma getClient_configured (e : gmap string string) (m : ClientModule)
    (creds : SyncroCredentials) :
  getCredentials e = Some creds ->
  exists m' client, getClient e m = (m', Return client).
Proof.
  intros H. unfold getClient. rewrite H.
  destruct (_client m) as [k0|] eqn:Hk0.
  - destruct (_credentials m) as [c0|].
    + destruct (credentialsChanged creds c0); simpl; [by eexists _, _|].
      rewrite Hk0. by eexists _, _.
    + rewrite Hk0. by eexists _, _.
  - rewrite Hk0. by eexists _, _.
Qed.

Lemma switch_unlisted {A} (toolName : string) (cases : list (string * A))
    (default : A) :
  toolName ∉ List.map fst cases ->
  Js.switch toolName cases default = default.
Proof.
  induction cases as [|[label body] rest IH]; intros H; simpl; [done|].
  simpl in H. apply not_elem_of_cons in H as [Hne Hrest].
  apply String.eqb_neq in Hne. rewrite Hne. by apply IH.
Qed.

Section HandlerFacts.

Variable api :
  SyncroClient -> string -> gmap string Js.value -> Completion string.

Lemma remoteCase_answer (toolName property : string)
    (client : SyncroClient) (args : Args) (m : ClientModule) :
  firstRead toolName = property ->
  String.eqb toolName "syncro_invoices_email" = false ->
  remoteCase api toolName property client args m
  = (m, caseAnswer toolName args (api client toolName)).
Proof.
  intros <- Hne. unfold remoteCase, caseAnswer, readArgs, bind, settle, ret.
  destruct args as [bag|]; [|done]. simpl.
  destruct (api client toolName bag); [|done]. by rewrite Hne.
Qed.

Lemma emailCase_answer (client : SyncroClient) (args : Args)
    (m : ClientModule) :
  emailCase api client args m
  = (m, caseAnswer "syncro_invoices_email" args
          (api client "syncro_invoices_email")).
Proof.
  unfold emailCase, caseAnswer, readArgs, bind, settle, ret.
  destruct args as [bag|]; [|done]. simpl.
  destruct (api client "syncro_invoices_email" bag); [|done].
  by destruct (default Js.Undefined (bag !! "invoice_id")).
Qed.

(** With the client resolved, the [switch] of a handler takes a listed
    name to its case. *)
Lemma handlerOf_listed_call (d : DomainName) (toolName : string)
    (args : Args) (e : gmap string string) (m m' : ClientModule)
    (client : SyncroClient) :
  getClient e m = (m', Return client) ->
  toolName ∈ List.map name (toolsOf d) ->
  handleCall (handlerOf api d) toolName args e m
  = (m', caseAnswer toolName args (api client toolName)).
Proof.
  intros E Hin.
  destruct d; simpl in Hin;
    repeat (apply elem_of_cons in Hin as [->|Hin]);
    try (by apply elem_of_nil in Hin);
    simpl; unfold handleCallOf, bind; rewrite E; simpl;
    first [by apply remoteCase_answer | apply emailCase_answer].
Qed.

(** And any other name to the [default] branch. *)
Lemma handlerOf_unlisted_call (d : DomainName) (toolName : string)
    (args : Args) (e : gmap string string) (m m' : ClientModule)
    (client : SyncroClient) :
  getClient e m = (m', Return client) ->
  toolName ∉ List.map name (toolsOf d) ->
  handleCall (handlerOf api d) toolName args e m
  = (m', Return (errorResult (unknownToolPrefix d +:+ toolName))).
Proof.
  intros E Hin.
  destruct d; simpl; unfold handleCallOf, bind; rewrite E;
    by rewrite switch_unlisted.
Qed.

Lemma handlerOf_getTools (d : DomainName) :
  getTools (handlerOf api d) = toolsOf d.
Proof. by destruct d. Qed.

Lemma repositoryModules_handlerOf (d : DomainName) :
  repositoryModules api d = Return (handlerOf api d).
Proof. by destruct d. Qed.

End HandlerFacts.

(** X10. In each of the five handler modules the tools [getTools] lists are
    exactly the names the [switch] of [handleCall] has a case for: with
    credentials configured, a call for a listed tool gives what its case
    gives (the [TypeError] of reading the arguments when the call has
    none; otherwise the failure of the remote call thrown on, or its
    rendered reply as the text, or for [syncro_invoices_email] the success
    notice built from the invoice id), and a call for any other name gives
    the handler's own unknown-tool error result; in both cases after
    [getClient] has run. *)
Theorem handler_cases_match_listed_tools api (d : DomainName)
    (toolName : string) (args : Args) (e : gmap string string)
    (m : ClientModule) (creds : SyncroCredentials) :
  getCredentials e = Some creds ->
  exists m' client,
    getClient e m = (m', Return client)
    /\ handleCall (handlerOf api d) toolName args e m =
         if bool_decide (toolName ∈ List.map name (toolsOf d))
         then (m', caseAnswer toolName args (api client toolName))
         else
           (m', Return {| content :=
                            [Text (unknownToolPrefix d +:+ toolName)];
                          isError := true |}).
Proof.
  intros Hcreds.
  destruct (getClient_configured e m creds Hcreds) as (m' & client & E).
  exists m', client. split; [exact E|].
  case_bool_decide as Hin.
  - exact (handlerOf_listed_call api d toolName args e m m' client E Hin).
  - exact (handlerOf_unlisted_call api d toolName args e m m' client E Hin).
Qed.

Lemma handler_cases_match_listed_tools_witness :
  exists m' client,
    getClient sampleEnv freshClientModule = (m', Return client)
    /\ handleCall (handlerOf sampleApi invoices) "syncro_invoices_email"
         (Some {[ "invoice_id" := Js.Other "42" ]})
         sampleEnv freshClientModule =
         if bool_decide
              ("syncro_invoices_email" ∈ List.map name (toolsOf invoices))
         then
           (m', caseAnswer "syncro_invoices_email"
                  (Some {[ "invoice_id" := Js.Other "42" ]})
                  (sampleApi client "syncro_invoices_email"))
         else
           (m', Return {| content :=
                            [Text (unknownToolPrefix invoices
                                   +:+ "syncro_invoices_email")];
                          isError := true |}).
Proof.
  exact (handler_cases_match_listed_tools sampleApi invoices
           "syncro_invoices_email"
           (Some {[ "invoice_id" := Js.Other "42" ]})
           sampleEnv freshClientModule
           {| apiKey := "key-one"; subdomain := None |} eq_refl).
Defined.

(** The four kinds of answer of a handler with credentials configured: a
    rendered reply, the success notice of [syncro_invoices_email] (the
    text of [JSON.stringify] with an indent of two), a call without
    arguments, and a name the handler has no case for. *)
Example handler_answers :
  snd (handleCall (handlerOf sampleApi invoices) "syncro_invoices_get"
         (Some {[ "invoice_id" := Js.Other "42" ]})
         sampleEnv freshClientModule)
  = Return (textResult "{}")
  /\ snd (handleCall (handlerOf sampleApi invoices) "syncro_invoices_email"
            (Some {[ "invoice_id" := Js.Other "42" ]})
            sampleEnv freshClientModule)
     = Return
         (textResult
            ("{" +:+ Js.nl
             +:+ "  " +:+ doubleQuote +:+ "success" +:+ doubleQuote
             +:+ ": true," +:+ Js.nl
             +:+ "  " +:+ doubleQuote +:+ "message" +:+ doubleQuote +:+ ": "
             +:+ doubleQuote
             +:+ "Invoice 42 has been emailed to the customer"
             +:+ doubleQuote +:+ Js.nl
             +:+ "}"))
  /\ snd (handleCall (handlerOf sampleApi invoices) "syncro_invoices_email"
            None sampleEnv freshClientModule)
     = Throw (Js.Error
                "Cannot read properties of undefined (reading 'invoice_id')")
  /\ snd (handleCall (handlerOf sampleApi invoices) "syncro_invoices_pay"
            None sampleEnv freshClientModule)
     = Return (errorResult "Unknown invoice tool: syncro_invoices_pay").
Proof. repeat split. Qed.

(** X11. Every handler resolves the client before it looks at the tool
    name: without a configured API key a call throws the "No API
    credentials provided" error for every name, listed or not, the client
    module is left as it was, and the remote side is not involved. *)
Theorem handler_needs_credentials_first api (d : DomainName)
    (toolName : string) (args : Args) (e : gmap string string)
    (m : ClientModule) :
  getCredentials e = None ->
  handleCall (handlerOf api d) toolName args e m =
    (m, Throw (Js.Error
                 "No API credentials provided. Please configure SYNCRO_API_KEY environment variable.")).
Proof.
  intros H. destruct d; simpl; unfold handleCallOf, bind;
    by rewrite (getClient_unconfigured e m H).
Qed.

Lemma handler_needs_credentials_first_witness :
  handleCall (handlerOf sampleApi contacts) "no_such_tool" None ∅
    freshClientModule
  = (freshClientModule,
     Throw (Js.Error
              "No API credentials provided. Please configure SYNCRO_API_KEY environment variable.")).
Proof.
  exact (handler_needs_credentials_first sampleApi contacts "no_such_tool"
           None ∅ freshClientModule eq_refl).
Defined.

(** X12. The tool names are namespaced: every tool of a domain is named
    [syncro_<domain>_...]; hence no domain tool has a reserved name and no
    name is listed by two domains. *)
Theorem tool_names_are_namespaced (d : DomainName) (t : Tool) :
  t ∈ toolsOf d ->
  String.prefix ("syncro_" +:+ domainString d +:+ "_") (name t) = true
  /\ (name t ∉ reservedNames)
  /\ forall d' t', t' ∈ toolsOf d' -> name t' = name t -> d' = d.
Proof.
  intros Ht.
  assert (String.prefix ("syncro_" +:+ domainString d +:+ "_") (name t)
          = true) as Hpre.
  { destruct d; simpl in Ht;
      repeat (apply elem_of_cons in Ht as [->|Ht]; [reflexivity|]);
      by apply elem_of_nil in Ht. }
  split; [exact Hpre|]. split.
  - unfold reservedNames. intros Hres.
    repeat (apply elem_of_cons in Hres as [Hres|Hres];
            [rewrite Hres in Hpre; by destruct d|]).
    by apply elem_of_nil in Hres.
  - intros d' t' Ht' Heq. rewrite <- Heq in Hpre.
    destruct d'; simpl in Ht';
      repeat (apply elem_of_cons in Ht' as [->|Ht'];
              [by destruct d|]);
      by apply elem_of_nil in Ht'.
Qed.

Lemma tool_names_are_namespaced_witness :
  String.prefix ("syncro_" +:+ domainString tickets +:+ "_")
    "syncro_tickets_add_comment" = true
  /\ ("syncro_tickets_add_comment" ∉ reservedNames)
  /\ forall d' t',
       t' ∈ toolsOf d' -> name t' = "syncro_tickets_add_comment" ->
       d' = tickets.
Proof.
  refine (tool_names_are_namespaced tickets
            {| name := "syncro_tickets_add_comment";
               description := "Add a comment to an existing ticket" |} _).
  simpl. repeat constructor.
Defined.

(** ** Dispatch and navigation *)

Lemma toolExists_true (request_name : string) (tools : list Tool) :
  request_name ∈ List.map name tools ->
  existsb (fun t => String.eqb (name t) request_name) tools = true.
Proof.
  induction tools as [|t tools IH]; simpl; intros H.
  - by apply elem_of_nil in H.
  - apply elem_of_cons in H as [->|H].
    + by rewrite String.eqb_refl.
    + rewrite IH by done. apply orb_true_r.
Qed.

Lemma toolsOf_names_not_reserved (d : DomainName) (toolName : string) :
  toolName ∈ List.map name (toolsOf d) -> toolName ∉ reservedNames.
Proof.
  intros H. apply (bool_decide_unpack _).
  destruct d; simpl in H;
    repeat (apply elem_of_cons in H as [->|H]; [by vm_compute|]);
    by apply elem_of_nil in H.
Qed.

Lemma callTool_listed_tool api (p : Process) (d : DomainName)
    (toolName : string) (args : Args) (creds : SyncroCredentials) :
  cacheOk (repositoryModules api) p ->
  currentDomain p = Some d ->
  toolName ∈ List.map name (toolsOf d) ->
  getCredentials (env p) = Some creds ->
  exists p' client,
    getClient (env p) (clientModule p) = (clientModule p', Return client)
    /\ callTool (repositoryModules api) toolName args p =
         (p', dispatchAnswer
                (caseAnswer toolName args (api client toolName)))
    /\ currentDomain p' = Some d
    /\ env p' = env p
    /\ delegated p' = delegated p ++ [HandleCall d toolName args].
Proof.
  intros Hcache Hd Hin Hcreds.
  pose proof (toolsOf_names_not_reserved d toolName Hin) as Hres.
  destruct (getClient_configured (env p) (clientModule p) creds Hcreds)
    as (m' & client & E).
  destruct (getDomainHandler_loaded _ d _ _ Hcache
              (repositoryModules_handlerOf api d)) as (c & Hh & _ & _).
  unfold callTool, tryCatch.
  rewrite (callToolBody_domain_tool _ _ _ _ Hres), Hd, Hh.
  rewrite handlerOf_getTools, (toolExists_true _ _ Hin).
  unfold onClientModule. cbn -[handleCall handlerOf getClient].
  rewrite (handlerOf_listed_call api d toolName args _ _ m' client E Hin).
  exists (set_clientModule m'
            (record_event (HandleCall d toolName args)
               (set_domainCache c p))), client.
  split; [exact E|]. split; [|by split_and!].
  destruct (caseAnswer toolName args (api client toolName))
    as [result|[message|message|typeError]]; reflexivity.
Qed.

(** X13. Inside a domain, with credentials configured, a call for one of
    the domain's listed tools is handed to the handler once and answers
    what the case of the tool comes to: the rendered reply of the remote
    call as a result without the error flag (for [syncro_invoices_email]
    the success notice instead); the failure of the remote call as
    "Error: " and its message with the flag set; and for a call without
    arguments the error result of the [TypeError] of the first read.  Only
    a failure without string conversion leaves the handler as a
    [TypeError].  The remote call goes out through the client [getClient]
    resolves at that moment; the navigation state and [process.env] stay
    as they are. *)
Theorem listed_tool_call_reaches_remote api (p : Process) (d : DomainName)
    (toolName : string) (args : Args) (creds : SyncroCredentials) :
  cacheOk (repositoryModules api) p ->
  currentDomain p = Some d ->
  toolName ∈ List.map name (toolsOf d) ->
  getCredentials (env p) = Some creds ->
  exists p' client,
    getClient (env p) (clientModule p) = (clientModule p', Return client)
    /\ callTool (repositoryModules api) toolName args p =
         (p',
          match caseAnswer toolName args (api client toolName) with
          | Return result => Return result
          | Throw (Js.Error message) | Throw (Js.NonError message) =>
              Return {| content := [Text ("Error: " +:+ message)];
                        isError := true |}
          | Throw (Js.Unconvertible typeError) =>
              Throw (Js.Error typeError)
          end)
    /\ currentDomain p' = Some d
    /\ env p' = env p
    /\ delegated p' = delegated p ++ [HandleCall d toolName args].
Proof. apply callTool_listed_tool. Qed.

Lemma listed_tool_call_reaches_remote_witness :
  exists p' client,
    getClient (env sampleInTickets) (clientModule sampleInTickets)
    = (clientModule p', Return client)
    /\ callTool (repositoryModules sampleApi) "syncro_tickets_get"
         (Some {[ "ticket_id" := Js.Other "789" ]}) sampleInTickets =
         (p', Return {| content := [Text "Error: Ticket not found"];
                        isError := true |})
    /\ currentDomain p' = Some tickets
    /\ env p' = env sampleInTickets
    /\ delegated p'
       = delegated sampleInTickets
         ++ [HandleCall tickets "syncro_tickets_get"
               (Some {[ "ticket_id" := Js.Other "789" ]})].
Proof.
  refine (listed_tool_call_reaches_remote sampleApi sampleInTickets tickets
            "syncro_tickets_get" (Some {[ "ticket_id" := Js.Other "789" ]})
            {| apiKey := "key-one"; subdomain := None |} _ eq_refl _ eq_refl).
  - exact (proj1 (processOk_reachable sampleApi sampleNewURL sampleEnv
                    [CallTool "syncro_navigate" (navigateTo tickets)])).
  - simpl. repeat constructor.
Defined.

(** X27. A failure of the handler of the selected domain, called for one
    of its tools, is converted at the dispatch boundary: when what was
    thrown is an [Error] (a remote API error, a network failure, the
    missing-credentials error of [getClient], the [TypeError] of a call
    without arguments) or any value with a string conversion, the call
    answers an error result whose text is "Error: " followed by the
    message; the call was handed to the handler once.  A thrown value
    without string conversion is the one failure that leaves the
    handler. *)
Theorem handler_failures_are_caught importDomain (p : Process)
    (request_name : string) (args : Args) (d : DomainName)
    (cache : gmap DomainName DomainHandler) (h : DomainHandler)
    (m : ClientModule) (e : Js.thrown) :
  request_name ∉ reservedNames ->
  currentDomain p = Some d ->
  getDomainHandler importDomain d (domainCache p) = (cache, Return h) ->
  existsb (fun t => String.eqb (name t) request_name) (getTools h) = true ->
  handleCall h request_name args (env p) (clientModule p) = (m, Throw e) ->
  exists p',
    callTool importDomain request_name args p =
      (p', match e with
           | Js.Error message | Js.NonError message =>
               Return {| content := [Text ("Error: " +:+ message)];
                         isError := true |}
           | Js.Unconvertible typeError => Throw (Js.Error typeError)
           end)
    /\ delegated p' = delegated p ++ [HandleCall d request_name args].
Proof.
  intros Hres Hd Hh Hex Hthrow.
  rewrite (callTool_handler_throws _ _ _ _ d cache h m e Hres Hd Hh Hex
             Hthrow).
  eexists. split; [by destruct e|reflexivity].
Qed.

Lemma handler_failures_are_caught_witness :
  exists p',
    callTool (repositoryModules sampleApi) "syncro_tickets_get"
      (Some {[ "ticket_id" := Js.Other "789" ]}) sampleInTickets
    = (p', Return {| content := [Text "Error: Ticket not found"];
                     isError := true |})
    /\ delegated p'
       = [HandleCall tickets "syncro_tickets_get"
            (Some {[ "ticket_id" := Js.Other "789" ]})].
Proof.
  refine (handler_failures_are_caught (repositoryModules sampleApi)
            sampleInTickets "syncro_tickets_get"
            (Some {[ "ticket_id" := Js.Other "789" ]})
            tickets {[ tickets := ticketsHandler sampleApi ]}
            (ticketsHandler sampleApi)
            {| _client :=
                 Some {| ref := 0;
                         config := {| apiKey := "key-one";
                                      subdomain := None |} |};
               _credentials :=
                 Some {| apiKey := "key-one"; subdomain := None |};
               constructed := 1 |}
            (Js.Error "Ticket not found") _ eq_refl eq_refl eq_refl eq_refl).
  apply (bool_decide_unpack _). vm_compute. exact I.
Defined.

(** X14. The navigation state moves only through [syncro_navigate] and
    [syncro_back]: listing the tools, an HTTP request, and a tool call
    under any other name, [syncro_status] and every domain tool included,
    leave [currentDomain] as it is, whatever the handlers do. *)
Theorem navigation_state_moves_only_by_navigation
    (importDomain : DomainName -> Completion DomainHandler)
    (newURL : string -> string -> Completion string)
    (r : Request) (p : Process) :
  (forall args, r <> CallTool "syncro_navigate" args) ->
  (forall args, r <> CallTool "syncro_back" args) ->
  currentDomain (serve importDomain newURL r p) = currentDomain p.
Proof.
  intros Hn Hb. destruct r as [|n a|gw now req]; simpl.
  - apply getToolsForState_currentDomain.
  - assert (String.eqb n "syncro_navigate" = false) as En.
    { apply String.eqb_neq. intros ->. by apply (Hn a). }
    assert (String.eqb n "syncro_back" = false) as Eb.
    { apply String.eqb_neq. intros ->. by apply (Hb a). }
    enough (keeps currentDomain (callTool importDomain n a)) as H
      by apply H.
    unfold callTool, callToolBody. rewrite En, Eb. repeat keeps_step.
  - apply requestListener_keeps_modules.
Qed.

Lemma navigation_state_moves_only_by_navigation_witness :
  currentDomain
    (serve (repositoryModules sampleApi) sampleNewURL
       (CallTool "syncro_tickets_get"
          (Some {[ "ticket_id" := Js.Other "789" ]}))
       sampleInTickets)
  = currentDomain sampleInTickets.
Proof.
  refine (navigation_state_moves_only_by_navigation
            (repositoryModules sampleApi) sampleNewURL
            (CallTool "syncro_tickets_get"
               (Some {[ "ticket_id" := Js.Other "789" ]}))
            sampleInTickets _ _);
    intros args; discriminate.
Defined.

(** X15. With the handler modules of the repository, the tools listed are
    a function of the navigation state alone: the navigate and status
    tools at the root, the back and status tools followed by the domain's
    tools inside a domain, whatever the environment, the credentials and
    the client cache are; and listing does not move the navigation
    state. *)
Theorem listed_tools_follow_navigation_state api (p : Process) :
  cacheOk (repositoryModules api) p ->
  exists p',
    getToolsForState (repositoryModules api) p =
      (p', Return match currentDomain p with
                  | None => [navigateTool; statusTool]
                  | Some d => backTool :: statusTool :: toolsOf d
                  end)
    /\ currentDomain p' = currentDomain p.
Proof.
  intros Hcache. destruct (currentDomain p) as [d|] eqn:Hd.
  - destruct (getDomainHandler_loaded _ d _ _ Hcache
                (repositoryModules_handlerOf api d)) as (c & Hh & _ & _).
    exists (set_domainCache c p).
    unfold getToolsForState, bind, get, onDomainCache, ret.
    cbn -[getDomainHandler]. rewrite Hd, Hh.
    by rewrite handlerOf_getTools.
  - exists p. by rewrite getToolsForState_root.
Qed.

Lemma listed_tools_follow_navigation_state_witness :
  exists p',
    getToolsForState (repositoryModules sampleApi) sampleInTicketsNoKey =
      (p', Return match currentDomain sampleInTicketsNoKey with
                  | None => [navigateTool; statusTool]
                  | Some d => backTool :: statusTool :: toolsOf d
                  end)
    /\ currentDomain p' = currentDomain sampleInTicketsNoKey.
Proof.
  refine (listed_tools_follow_navigation_state sampleApi
            sampleInTicketsNoKey _).
  exact (proj1 (processOk_reachable sampleApi sampleNewURL sampleEnv
                  [CallTool "syncro_navigate" (navigateTo tickets)])).
Defined.

(** X16. The ListTools handler has no [catch]: after a navigation whose
    handler import failed, which leaves the domain selected, listing the
    tools rejects with the import's error instead of answering a list, and
    keeps doing so while the import fails. *)
Theorem listing_rejects_after_failed_navigation
    (importDomain : DomainName -> Completion DomainHandler) (p : Process)
    (bag : gmap string Js.value) (d : DomainName) (e : Js.thrown) :
  bag !! "domain" = Some (Js.Str (domainString d)) ->
  is_Some (getCredentials (env p)) ->
  domainCache p !! d = None ->
  importDomain d = Throw e ->
  getToolsForState importDomain
    (fst (callTool importDomain "syncro_navigate" (Some bag) p))
  = (fst (callTool importDomain "syncro_navigate" (Some bag) p), Throw e).
Proof.
  intros Hbag Hcreds Hcache Himp.
  rewrite (callTool_navigate_valid _ p bag d Hbag Hcreds).
  unfold getDomainHandler at 1 2. rewrite Hcache, Himp. simpl.
  unfold getToolsForState, bind, get, onDomainCache, getDomainHandler.
  simpl. rewrite Hcache, Himp. by destruct p.
Qed.

Lemma listing_rejects_after_failed_navigation_witness :
  getToolsForState brokenModules
    (fst (callTool brokenModules "syncro_navigate" (navigateTo invoices)
            (startProcess sampleEnv)))
  = (fst (callTool brokenModules "syncro_navigate" (navigateTo invoices)
            (startProcess sampleEnv)),
     Throw (Js.Error "Cannot find module")).
Proof.
  refine (listing_rejects_after_failed_navigation brokenModules
            (startProcess sampleEnv) {[ "domain" := Js.Str "invoices" ]}
            invoices (Js.Error "Cannot find module") eq_refl _ eq_refl
            eq_refl).
  vm_compute. eexists. reflexivity.
Defined.

(** ** The HTTP listener *)

(** X17. When the auth mode is not gateway, the listener changes nothing in
    the process, never answers 401, and passes every request whose URL
    parses to the pathname [/mcp] on to the transport whatever headers it
    carries. *)
Theorem env_mode_listener_is_passive newURL (now : string)
    (req : IncomingMessage) (p : Process) :
  fst (requestListener newURL false now req p) = p
  /\ (forall body,
        snd (requestListener newURL false now req p) <> Respond 401 body)
  /\ (urlPathname newURL req = Return "/mcp" ->
      snd (requestListener newURL false now req p) = HandleRequest).
Proof.
  unfold requestListener.
  destruct (urlPathname newURL req) as [pathname|e]; [|by split_and!].
  destruct (String.eqb pathname "/health") eqn:Eh.
  - split_and!; [done|done|].
    intros [= Hm]. rewrite Hm in Eh. discriminate.
  - destruct (String.eqb pathname "/mcp") eqn:Em.
    + by split_and!.
    + split_and!; [done|done|].
      intros [= Hm]. rewrite Hm in Em. discriminate.
Qed.

Lemma env_mode_listener_is_passive_witness :
  fst (requestListener sampleNewURL false "2025-01-01T00:00:00.000Z"
         (mcpRequest {[ "x-syncro-api-key" := Single "tenant-a-key" ]})
         (startProcess sampleEnv))
  = startProcess sampleEnv
  /\ snd (requestListener sampleNewURL false "2025-01-01T00:00:00.000Z"
            (mcpRequest {[ "x-syncro-api-key" := Single "tenant-a-key" ]})
            (startProcess sampleEnv))
     = HandleRequest.
Proof.
  split.
  - exact (proj1 (env_mode_listener_is_passive sampleNewURL
                    "2025-01-01T00:00:00.000Z"
                    (mcpRequest
                       {[ "x-syncro-api-key" := Single "tenant-a-key" ]})
                    (startProcess sampleEnv))).
  - exact (proj2 (proj2 (env_mode_listener_is_passive sampleNewURL
                           "2025-01-01T00:00:00.000Z"
                           (mcpRequest
                              {[ "x-syncro-api-key" :=
                                   Single "tenant-a-key" ]})
                           (startProcess sampleEnv))) eq_refl).
Defined.

(** X26. For a request whose URL parses, the listener routes on the
    pathname alone: in gateway mode a request to [/mcp] without the
    API-key header is answered 401 with the body that names
    [X-Syncro-API-Key] as required and [X-Syncro-Subdomain] as optional,
    it is not passed on to the protocol transport and the process state is
    untouched; a request to [/health] is answered 200 with status,
    transport, auth mode and timestamp in either mode, whatever its
    headers; every other pathname is answered 404 with the two known
    paths. *)
Theorem http_listener_routes newURL (now : string) (req : IncomingMessage)
    (p : Process) (pathname : string) :
  urlPathname newURL req = Return pathname ->
  (pathname = "/mcp" ->
   Js.truthy (getHeader (headers req) "x-syncro-api-key") = false ->
   requestListener newURL true now req p =
     (p, Respond 401
           [("error", JString "Missing credentials");
            ("message",
             JString "Gateway mode requires X-Syncro-API-Key header");
            ("required", JArray ["X-Syncro-API-Key"]);
            ("optional", JArray ["X-Syncro-Subdomain"])]))
  /\ (pathname = "/health" ->
      forall gateway : bool,
        requestListener newURL gateway now req p =
          (p, Respond 200
                [("status", JString "ok");
                 ("transport", JString "http");
                 ("authMode",
                  JString (if gateway then "gateway" else "env"));
                 ("timestamp", JString now)]))
  /\ (pathname <> "/health" -> pathname <> "/mcp" ->
      forall gateway : bool,
        requestListener newURL gateway now req p =
          (p, Respond 404
                [("error", JString "Not found");
                 ("endpoints", JArray ["/mcp"; "/health"])])).
Proof. apply requestListener_routes. Qed.

Lemma http_listener_routes_witness :
  requestListener sampleNewURL true "2025-01-01T00:00:00.000Z"
    (mcpRequest ∅) (startProcess sampleEnv)
  = (startProcess sampleEnv,
     Respond 401
       [("error", JString "Missing credentials");
        ("message", JString "Gateway mode requires X-Syncro-API-Key header");
        ("required", JArray ["X-Syncro-API-Key"]);
        ("optional", JArray ["X-Syncro-Subdomain"])])
  /\ requestListener sampleNewURL true "2025-01-01T00:00:00.000Z"
       {| url := Some "/health"; headers := ∅ |} (startProcess ∅)
     = (startProcess ∅,
        Respond 200
          [("status", JString "ok"); ("transport", JString "http");
           ("authMode", JString "gateway");
           ("timestamp", JString "2025-01-01T00:00:00.000Z")])
  /\ requestListener sampleNewURL false "2025-01-01T00:00:00.000Z"
       {| url := None; headers := ∅ |} (startProcess ∅)
     = (startProcess ∅,
        Respond 404
          [("error", JString "Not found");
           ("endpoints", JArray ["/mcp"; "/health"])]).
Proof.
  split_and!.
  - exact (proj1 (http_listener_routes sampleNewURL
                    "2025-01-01T00:00:00.000Z" (mcpRequest ∅)
                    (startProcess sampleEnv) "/mcp" eq_refl)
             eq_refl eq_refl).
  - exact (proj1 (proj2 (http_listener_routes sampleNewURL
                           "2025-01-01T00:00:00.000Z"
                           {| url := Some "/health"; headers := ∅ |}
                           (startProcess ∅) "/health" eq_refl))
             eq_refl true).
  - refine (proj2 (proj2 (http_listener_routes sampleNewURL
                            "2025-01-01T00:00:00.000Z"
                            {| url := None; headers := ∅ |}
                            (startProcess ∅) "/" eq_refl))
              _ _ false); discriminate.
Defined.

Lemma applyGatewayCredentials_other_keys (req : IncomingMessage)
    (e : gmap string string) (key : string) :
  key <> "SYNCRO_API_KEY" ->
  key <> "SYNCRO_SUBDOMAIN" ->
  fst (applyGatewayCredentials req e) !! key = e !! key.
Proof.
  intros Hk Hs. unfold applyGatewayCredentials.
  destruct (getHeader (headers req) "x-syncro-api-key") as [[|c k]|];
    [done| |done].
  destruct (getHeader (headers req) "x-syncro-subdomain") as [[|c' s]|];
    simpl; by rewrite ?lookup_insert_ne by done.
Qed.

(** X18. Whatever the mode and the request, the listener changes nothing in
    the process but the two variables [SYNCRO_API_KEY] and
    [SYNCRO_SUBDOMAIN] of [process.env]: every other variable, the
    navigation state, the handler cache and the client module, with the
    client cached in it, are as before. *)
Theorem listener_writes_only_credentials newURL (gateway : bool)
    (now : string) (req : IncomingMessage) (p : Process) (key : string) :
  key <> "SYNCRO_API_KEY" ->
  key <> "SYNCRO_SUBDOMAIN" ->
  env (fst (requestListener newURL gateway now req p)) !! key = env p !! key
  /\ currentDomain (fst (requestListener newURL gateway now req p))
     = currentDomain p
  /\ domainCache (fst (requestListener newURL gateway now req p))
     = domainCache p
  /\ clientModule (fst (requestListener newURL gateway now req p))
     = clientModule p.
Proof.
  intros Hk Hs.
  destruct (requestListener_keeps_modules newURL gateway now req p)
    as (Hc & Hm & Hd).
  split; [|by split_and!].
  unfold requestListener.
  destruct (urlPathname newURL req) as [pathname|e]; [|done].
  destruct (String.eqb pathname "/health"); [done|].
  destruct (String.eqb pathname "/mcp"); [|done].
  destruct gateway; [|done].
  pose proof (applyGatewayCredentials_other_keys req (env p) key Hk Hs) as H.
  by destruct (applyGatewayCredentials req (env p)) as [e' []].
Qed.

Lemma listener_writes_only_credentials_witness :
  env (fst (requestListener sampleNewURL true "2025-01-01T00:00:00.000Z"
              (mcpRequest {[ "x-syncro-api-key" := Single "tenant-a-key";
                             "auth_mode" := Single "env" ]})
              (startProcess {[ "AUTH_MODE" := "gateway" ]}))) !! "AUTH_MODE"
  = env (startProcess {[ "AUTH_MODE" := "gateway" ]}) !! "AUTH_MODE".
Proof.
  refine (proj1 (listener_writes_only_credentials sampleNewURL true
                   "2025-01-01T00:00:00.000Z"
                   (mcpRequest
                      {[ "x-syncro-api-key" := Single "tenant-a-key";
                         "auth_mode" := Single "env" ]})
                   (startProcess {[ "AUTH_MODE" := "gateway" ]})
                   "AUTH_MODE" _ _)); discriminate.
Defined.

(** X19. When the API-key header arrives as a list of values, the first
    value alone decides: the request is passed on when it is a non-empty
    string, and answered 401 when the list is empty or starts with an
    empty string, whatever values follow. *)
Theorem gateway_reads_first_header_value newURL (now : string)
    (req : IncomingMessage) (p : Process) (values : list string) :
  urlPathname newURL req = Return "/mcp" ->
  headers req !! "x-syncro-api-key" = Some (Multiple values) ->
  snd (requestListener newURL true now req p) =
    if Js.truthy (head values) then HandleRequest
    else Respond 401
           [("error", JString "Missing credentials");
            ("message",
             JString "Gateway mode requires X-Syncro-API-Key header");
            ("required", JArray ["X-Syncro-API-Key"]);
            ("optional", JArray ["X-Syncro-Subdomain"])].
Proof.
  intros Hp Hh. unfold requestListener. rewrite Hp. simpl.
  assert (getHeader (headers req) "x-syncro-api-key" = head values) as Hg.
  { rewrite getHeader_lower_case by reflexivity. by rewrite Hh. }
  destruct (Js.truthy (head values)) eqn:Ht.
  - destruct (head values) as [a|] eqn:Ha; [|discriminate].
    by rewrite (applyGatewayCredentials_present req (env p) a Hg Ht).
  - rewrite <- Hg in Ht.
    by rewrite (applyGatewayCredentials_missing req (env p) Ht).
Qed.

Lemma gateway_reads_first_header_value_witness :
  snd (requestListener sampleNewURL true "2025-01-01T00:00:00.000Z"
         (mcpRequest
            {[ "x-syncro-api-key" := Multiple [EmptyString; "second-key"] ]})
         (startProcess ∅))
  = if Js.truthy (head [EmptyString; "second-key"]) then HandleRequest
    else Respond 401
           [("error", JString "Missing credentials");
            ("message",
             JString "Gateway mode requires X-Syncro-API-Key header");
            ("required", JArray ["X-Syncro-API-Key"]);
            ("optional", JArray ["X-Syncro-Subdomain"])].
Proof.
  exact (gateway_reads_first_header_value sampleNewURL
           "2025-01-01T00:00:00.000Z"
           (mcpRequest
              {[ "x-syncro-api-key" :=
                   Multiple [EmptyString; "second-key"] ]})
           (startProcess ∅) [EmptyString; "second-key"] eq_refl eq_refl).
Defined.

(** ** The routing the HTTP transport tests run *)

Lemma HttpTest_applyGatewayCredentials_eq (req : IncomingMessage)
    (e : gmap string string) :
  HttpTest.applyGatewayCredentials req e = applyGatewayCredentials req e.
Proof.
  unfold HttpTest.applyGatewayCredentials, applyGatewayCredentials.
  destruct (getHeader (headers req) "x-syncro-api-key") as [[|c k]|];
    [done| |done]. simpl.
  by destruct (getHeader (headers req) "x-syncro-subdomain") as [[|c' s]|].
Qed.

(** X20. The copy of the routing that the HTTP transport tests run is the
    routing of the server: its [applyGatewayCredentials] computes the same
    environment and the same boolean, and its listener leaves the same
    [process.env] and writes the same status and body, or throws the same
    error on a URL that does not parse, except that where the server
    passes the request on to the transport the test server answers 200
    "mcp-endpoint-reached". *)
Theorem test_server_routes_like_server newURL (gateway : bool)
    (now : string) (req : IncomingMessage) (p : Process) :
  HttpTest.applyGatewayCredentials req (env p)
  = applyGatewayCredentials req (env p)
  /\ fst (HttpTest.createTestServer newURL gateway now req (env p))
     = env (fst (requestListener newURL gateway now req p))
  /\ snd (HttpTest.createTestServer newURL gateway now req (env p))
     = match snd (requestListener newURL gateway now req p) with
       | Respond status body => Respond status body
       | HandleRequest =>
           Respond 200 [("status", JString "mcp-endpoint-reached")]
       | Uncaught e => Uncaught e
       end.
Proof.
  split; [apply HttpTest_applyGatewayCredentials_eq|].
  unfold HttpTest.createTestServer, requestListener.
  rewrite HttpTest_applyGatewayCredentials_eq.
  destruct (urlPathname newURL req) as [pathname|e]; [|done].
  destruct (String.eqb pathname "/health"); [done|].
  destruct (String.eqb pathname "/mcp"); [|done].
  destruct gateway; [|done].
  by destruct (applyGatewayCredentials req (env p)) as [e' []].
Qed.

(** ** The Cloudflare Workers adapter *)

(** X21. The worker never serves the protocol: a request to [/mcp] is
    answered 401 when the auth mode is gateway and the API-key header is
    missing or empty, and 501 in every other case. *)
Theorem worker_never_serves_mcp (now : string) (request : Worker.Request)
    (env : Worker.Env) (g : Worker.Globals) :
  Worker.pathname request = "/mcp" ->
  Worker.status (snd (Worker.fetch now request env g)) =
    if bool_decide (Worker.AUTH_MODE env = Some "gateway")
       && negb (Js.truthy (Worker.headers_get request "x-syncro-api-key"))
    then 401 else 501.
Proof.
  intros Hp. unfold Worker.fetch. rewrite Hp. simpl.
  destruct (bool_decide (Worker.AUTH_MODE env = Some "gateway")); [|done].
  by destruct (Js.truthy (Worker.headers_get request "x-syncro-api-key")).
Qed.

Lemma worker_never_serves_mcp_witness :
  Worker.status
    (snd (Worker.fetch "2025-01-01T00:00:00.000Z"
            {| Worker.pathname := "/mcp";
               Worker.headers := {[ "x-syncro-api-key" := "tenant-a-key" ]} |}
            {| Worker.SYNCRO_API_KEY := "bound-key";
               Worker.SYNCRO_SUBDOMAIN := None;
               Worker.AUTH_MODE := Some "gateway" |}
            {| Worker.__SYNCRO_API_KEY := None;
               Worker.__SYNCRO_SUBDOMAIN := None |}))
  = 501.
Proof.
  exact (worker_never_serves_mcp "2025-01-01T00:00:00.000Z"
           {| Worker.pathname := "/mcp";
              Worker.headers := {[ "x-syncro-api-key" := "tenant-a-key" ]} |}
           {| Worker.SYNCRO_API_KEY := "bound-key";
              Worker.SYNCRO_SUBDOMAIN := None;
              Worker.AUTH_MODE := Some "gateway" |}
           {| Worker.__SYNCRO_API_KEY := None;
              Worker.__SYNCRO_SUBDOMAIN := None |} eq_refl).
Defined.

(** X22. In the worker the credentials of one request do not carry over to
    the next: after a request to [/mcp] the two globals are a function of
    that request and the bindings alone, the API key being the header's in
    gateway mode when it is given and the binding's otherwise, and the
    tenant qualifier the header's when both headers are given in gateway
    mode and the binding's otherwise, whatever the globals were before. *)
Theorem worker_credentials_do_not_carry_over (now : string)
    (request : Worker.Request) (env : Worker.Env) (g : Worker.Globals) :
  Worker.pathname request = "/mcp" ->
  fst (Worker.fetch now request env g) =
    let gateway := bool_decide (Worker.AUTH_MODE env = Some "gateway") in
    let apiKey := Worker.headers_get request "x-syncro-api-key" in
    let subdomain := Worker.headers_get request "x-syncro-subdomain" in
    {| Worker.__SYNCRO_API_KEY :=
         if gateway && Js.truthy apiKey then apiKey
         else Some (Worker.SYNCRO_API_KEY env);
       Worker.__SYNCRO_SUBDOMAIN :=
         if gateway && Js.truthy apiKey && Js.truthy subdomain
         then subdomain
         else Worker.SYNCRO_SUBDOMAIN env |}.
Proof.
  intros Hp. unfold Worker.fetch. rewrite Hp. simpl.
  destruct (bool_decide (Worker.AUTH_MODE env = Some "gateway")); [|done].
  destruct (Js.truthy (Worker.headers_get request "x-syncro-api-key"));
    [|done]. simpl.
  by destruct (Js.truthy (Worker.headers_get request "x-syncro-subdomain")).
Qed.

Lemma worker_credentials_do_not_carry_over_witness :
  fst (Worker.fetch "2025-01-01T00:00:01.000Z"
         {| Worker.pathname := "/mcp";
            Worker.headers := {[ "x-syncro-api-key" := "tenant-b-key" ]} |}
         {| Worker.SYNCRO_API_KEY := "bound-key";
            Worker.SYNCRO_SUBDOMAIN := None;
            Worker.AUTH_MODE := Some "gateway" |}
         {| Worker.__SYNCRO_API_KEY := Some "tenant-a-key";
            Worker.__SYNCRO_SUBDOMAIN := Some "tenant-a" |})
  = {| Worker.__SYNCRO_API_KEY := Some "tenant-b-key";
       Worker.__SYNCRO_SUBDOMAIN := None |}.
Proof.
  exact (worker_credentials_do_not_carry_over "2025-01-01T00:00:01.000Z"
           {| Worker.pathname := "/mcp";
              Worker.headers := {[ "x-syncro-api-key" := "tenant-b-key" ]} |}
           {| Worker.SYNCRO_API_KEY := "bound-key";
              Worker.SYNCRO_SUBDOMAIN := None;
              Worker.AUTH_MODE := Some "gateway" |}
           {| Worker.__SYNCRO_API_KEY := Some "tenant-a-key";
              Worker.__SYNCRO_SUBDOMAIN := Some "tenant-a" |} eq_refl).
Defined.

(** ** Invariants of a running process, continued *)

Section ClientModuleWriters.

Variable api :
  SyncroClient -> string -> gmap string Js.value -> Completion string.

(** The protocol handlers write the client module through [getClient]
    only. *)
Lemma callTool_clientModule (request_name : string) (args : Args)
    (p : Process) :
  cacheOk (repositoryModules api) p ->
  clientModule (fst (callTool (repositoryModules api) request_name args p))
  = clientModule p
  \/ clientModule (fst (callTool (repositoryModules api) request_name args p))
     = fst (getClient (env p) (clientModule p)).
Proof.
  intros Hcache.
  destruct (decide (request_name ∈ reservedNames)) as [Hres|Hres].
  { left. by rewrite (callTool_reserved_clientModule _ _ _ Hres). }
  rewrite callTool_state, (callToolBody_domain_tool _ _ _ _ Hres).
  destruct (currentDomain p) as [d|]; [|by left].
  destruct (getDomainHandler_loaded _ d _ _ Hcache
              (repositoryModules_handlerOf api d)) as (c & -> & _ & _).
  destruct (existsb _ (getTools (handlerOf api d))); [|by left].
  right. unfold onClientModule. cbn -[handleCall handlerOf getClient].
  pose proof (repositoryModules_handleCall_state api d (handlerOf api d)
                request_name args (env p) (clientModule p)
                (repositoryModules_handlerOf api d)) as Hst.
  by destruct (handleCall (handlerOf api d) request_name args (env p)
                 (clientModule p)) as [m [r|err]].
Qed.

End ClientModuleWriters.

(** X23. In a process that runs the handler modules of the repository,
    after any sequence of tool listings, tool calls and HTTP requests:
    every cached handler is the one its module exports, a cached client is
    always accompanied by cached credentials and was constructed earlier,
    and it was constructed from exactly those cached credentials. *)
Theorem reachable_process_invariants
    (api :
       SyncroClient -> string -> gmap string Js.value -> Completion string)
    (newURL : string -> string -> Completion string)
    (e : gmap string string) (rs : list Request) :
  cacheOk (repositoryModules api)
    (foldl (fun q r => serve (repositoryModules api) newURL r q)
       (startProcess e) rs)
  /\ clientModuleOk
       (clientModule
          (foldl (fun q r => serve (repositoryModules api) newURL r q)
             (startProcess e) rs))
  /\ clientBound
       (clientModule
          (foldl (fun q r => serve (repositoryModules api) newURL r q)
             (startProcess e) rs)).
Proof.
  enough (forall p,
            processOk api p /\ clientBound (clientModule p) ->
            let q :=
              foldl (fun q r => serve (repositoryModules api) newURL r q)
                p rs in
            processOk api q /\ clientBound (clientModule q)) as H.
  { destruct (H (startProcess e)) as [[Hc Hm] Hb]; [|by split_and!].
    split; [split; [apply cacheLoadedFrom_empty|exact I]|].
    apply clientBound_fresh. }
  induction rs as [|r rs IH]; intros p [Hok Hb]; simpl; [done|].
  apply IH. split; [by apply serve_processOk|].
  destruct r as [|n a|gw now req]; simpl.
  - enough (keeps clientModule (getToolsForState (repositoryModules api)))
      as -> by done.
    unfold getToolsForState. repeat keeps_step.
  - destruct (callTool_clientModule api n a p (proj1 Hok)) as [->| ->];
      [done|by apply clientBound_getClient].
  - by rewrite (proj1 (proj2 (requestListener_keeps_modules newURL gw now
                                req p))).
Qed.

(** ** Gateway credentials and the client, end to end *)

(** X24. Served one after the other, a gateway request and the tool call
    it carries use the request's own credentials: once the listener has
    passed on a request with API key [a], a call for a listed tool of the
    selected domain is answered with what the case of the tool comes to
    through a client that was constructed from [a], paired with the
    request's tenant qualifier when it carried one and with the one in
    [process.env] otherwise, even when a client for other credentials was
    cached before. *)
Theorem gateway_call_uses_request_credentials api newURL (now : string)
    (req : IncomingMessage) (p : Process) (a : string) (d : DomainName)
    (toolName : string) (args : Args) :
  cacheOk (repositoryModules api) p ->
  clientModuleOk (clientModule p) ->
  clientBound (clientModule p) ->
  urlPathname newURL req = Return "/mcp" ->
  getHeader (headers req) "x-syncro-api-key" = Some a ->
  Js.truthy (Some a) = true ->
  currentDomain p = Some d ->
  toolName ∈ List.map name (toolsOf d) ->
  exists p1 p2 client,
    requestListener newURL true now req p = (p1, HandleRequest)
    /\ callTool (repositoryModules api) toolName args p1 =
         (p2,
          match caseAnswer toolName args (api client toolName) with
          | Return result => Return result
          | Throw (Js.Error message) | Throw (Js.NonError message) =>
              Return {| content := [Text ("Error: " +:+ message)];
                        isError := true |}
          | Throw (Js.Unconvertible typeError) =>
              Throw (Js.Error typeError)
          end)
    /\ config client =
         {| apiKey := a;
            subdomain :=
              if Js.truthy (getHeader (headers req) "x-syncro-subdomain")
              then getHeader (headers req) "x-syncro-subdomain"
              else env p !! "SYNCRO_SUBDOMAIN" |}.
Proof.
  intros Hcache Hok Hb Hpath Ha Ht Hd Hin.
  destruct (gateway_credentials_stored newURL now req p a Hpath Ha Ht)
    as (p1 & E1 & Henv).
  pose proof (requestListener_keeps_modules newURL true now req p) as Hkeep.
  rewrite E1 in Hkeep. simpl in Hkeep. destruct Hkeep as (Hc1 & Hm1 & Hd1).
  pose proof (getCredentials_gatewayEnv req (env p) a Ht) as Hcreds.
  rewrite <- Henv in Hcreds.
  assert (cacheOk (repositoryModules api) p1) as Hcache1.
  { unfold cacheOk. by rewrite Hc1. }
  rewrite <- Hd1 in Hd.
  destruct (callTool_listed_tool api p1 d toolName args _ Hcache1 Hd Hin
              Hcreds) as (p2 & client & Eg & Ecall & _).
  exists p1, p2, client. split; [exact E1|]. split; [exact Ecall|].
  rewrite Hm1 in Eg.
  pose proof (getClient_config _ _ _ _ Hb Hok Eg) as Hcfg.
  rewrite Hcreds in Hcfg. by injection Hcfg as <-.
Qed.

Lemma gateway_call_uses_request_credentials_witness :
  exists p1 p2 client,
    requestListener sampleNewURL true "2025-01-01T00:00:00.000Z"
      (mcpRequest {[ "x-syncro-api-key" := Single "tenant-a-key" ]})
      (fst (callTool (repositoryModules sampleApi) "syncro_tickets_list"
              (Some ∅) sampleInTickets))
    = (p1, HandleRequest)
    /\ callTool (repositoryModules sampleApi) "syncro_tickets_update"
         (Some {[ "ticket_id" := Js.Other "789";
                  "status" := Js.Str "Resolved" ]}) p1
       = (p2, Return {| content := [Text "{}"]; isError := false |})
    /\ config client = {| apiKey := "tenant-a-key"; subdomain := None |}.
Proof.
  refine (gateway_call_uses_request_credentials sampleApi sampleNewURL
            "2025-01-01T00:00:00.000Z"
            (mcpRequest {[ "x-syncro-api-key" := Single "tenant-a-key" ]})
            (fst (callTool (repositoryModules sampleApi)
                    "syncro_tickets_list" (Some ∅) sampleInTickets))
            "tenant-a-key" tickets "syncro_tickets_update"
            (Some {[ "ticket_id" := Js.Other "789";
                     "status" := Js.Str "Resolved" ]})
            _ _ _ eq_refl eq_refl eq_refl eq_refl _).
  - exact (proj1 (processOk_reachable sampleApi sampleNewURL sampleEnv
                    [CallTool "syncro_navigate" (navigateTo tickets);
                     CallTool "syncro_tickets_list" (Some ∅)])).
  - exact (proj2 (processOk_reachable sampleApi sampleNewURL sampleEnv
                    [CallTool "syncro_navigate" (navigateTo tickets);
                     CallTool "syncro_tickets_list" (Some ∅)])).
  - intros k. vm_compute. intros [= <-]. reflexivity.
  - simpl. repeat constructor.
Defined.

(** ** Lazy construction of the client *)

Lemma getClient_constructed (e : gmap string string) (m : ClientModule) :
  constructed (fst (getClient e m)) <= S (constructed m).
Proof.
  unfold getClient. destruct (getCredentials e) as [creds|]; [|simpl; lia].
  destruct (_client m) as [k0|] eqn:Hk0.
  - destruct (_credentials m) as [c0|].
    + destruct (credentialsChanged creds c0); simpl; [lia|].
      rewrite Hk0. simpl. lia.
    + rewrite Hk0. simpl. lia.
  - rewrite Hk0. simpl. lia.
Qed.

Lemma callTool_reserved_delegated importDomain (request_name : string)
    (args : Args) :
  request_name ∈ reservedNames ->
  keeps delegated (callTool importDomain request_name args).
Proof.
  unfold reservedNames. intros H.
  repeat (apply elem_of_cons in H as [->|H]);
    [| | |by apply elem_of_nil in H].
  all: unfold callTool, callToolBody; simpl; repeat keeps_step.
Qed.

Lemma callTool_constructs_when_delegating api (request_name : string)
    (args : Args) (p : Process) :
  cacheOk (repositoryModules api) p ->
  constructed
    (clientModule (fst (callTool (repositoryModules api) request_name args p)))
  + length (delegated p)
  <= constructed (clientModule p)
     + length
         (delegated
            (fst (callTool (repositoryModules api) request_name args p))).
Proof.
  intros Hcache.
  destruct (decide (request_name ∈ reservedNames)) as [Hres|Hres].
  { rewrite (callTool_reserved_clientModule _ _ _ Hres).
    by rewrite (callTool_reserved_delegated _ _ _ Hres). }
  rewrite callTool_state, (callToolBody_domain_tool _ _ _ _ Hres).
  destruct (currentDomain p) as [d|]; [|done].
  destruct (getDomainHandler_loaded _ d _ _ Hcache
              (repositoryModules_handlerOf api d)) as (c & -> & _ & _).
  destruct (existsb _ (getTools (handlerOf api d))); [|done].
  unfold onClientModule. cbn -[handleCall handlerOf getClient].
  pose proof (repositoryModules_handleCall_state api d (handlerOf api d)
                request_name args (env p) (clientModule p)
                (repositoryModules_handlerOf api d)) as Hst.
  pose proof (getClient_constructed (env p) (clientModule p)) as Hle.
  destruct (handleCall (handlerOf api d) request_name args (env p)
              (clientModule p)) as [m [r|err]];
    simpl in *; subst m; rewrite length_app; simpl; lia.
Qed.

(** X25. The Syncro client is constructed lazily: in a process that runs
    the handler modules of the repository, after any sequence of requests,
    no more clients have been constructed than calls have been handed to
    domain handlers; in particular none before the first such call,
    however often the session navigated, listed tools or asked for the
    status. *)
Theorem client_is_constructed_lazily
    (api :
       SyncroClient -> string -> gmap string Js.value -> Completion string)
    (newURL : string -> string -> Completion string)
    (e : gmap string string) (rs : list Request) :
  constructed
    (clientModule
       (foldl (fun q r => serve (repositoryModules api) newURL r q)
          (startProcess e) rs))
  <= length
       (delegated
          (foldl (fun q r => serve (repositoryModules api) newURL r q)
             (startProcess e) rs)).
Proof.
  enough (forall p,
            processOk api p ->
            constructed (clientModule p) <= length (delegated p) ->
            let q :=
              foldl (fun q r => serve (repositoryModules api) newURL r q)
                p rs in
            constructed (clientModule q) <= length (delegated q)) as H.
  { apply H; [|simpl; lia].
    split; [apply cacheLoadedFrom_empty|exact I]. }
  induction rs as [|r rs IH]; intros p Hok Hle; simpl; [done|].
  apply IH; [by apply serve_processOk|].
  destruct r as [|n a|gw now req]; simpl.
  - assert (keeps clientModule (getToolsForState (repositoryModules api)))
      as -> by (unfold getToolsForState; repeat keeps_step).
    assert (keeps delegated (getToolsForState (repositoryModules api)))
      as -> by (unfold getToolsForState; repeat keeps_step).
    done.
  - pose proof (callTool_constructs_when_delegating api n a p (proj1 Hok)).
    lia.
  - rewrite (proj1 (proj2 (requestListener_keeps_modules newURL gw now req
                             p))).
    enough (delegated (fst (requestListener newURL gw now req p))
            = delegated p) as -> by done.
    unfold requestListener.
    destruct (urlPathname newURL req) as [pathname|err]; [|done].
    destruct (String.eqb pathname "/health"); [done|].
    destruct (String.eqb pathname "/mcp"); [|done].
    destruct gw; [|done].
    by destruct (applyGatewayCredentials req (env p)) as [e' []].
Qed.
